(** * NCERT content pipeline: a shallow embedding of [scraper.py]

    The scraper walks a three-level catalogue (class, subject, title), and for
    every book downloads a zip archive, extracts its largest PDF, stores it
    under a name derived from the catalogue entry and records a hash.  The
    development below embeds the pure parts as functions and the effectful
    parts in a state-and-exception monad over a file system and a trace of
    effects; the outside world (browser session, HTTP, the zip and hash
    libraries) is a record of oracles. *)

From Stdlib Require Import Ascii String.
From Stdlib.Strings Require Import Byte.
From stdpp Require Import gmap list.

Local Open Scope N_scope.

(** ** Python strings

    A Python [str] is a sequence of Unicode code points; a code point is a
    number.  [py] reads a literal of the source. *)

Abbreviation str := (list N).

Definition py (s : string) : str := N_of_ascii <$> list_ascii_of_string s.
Arguments py : simpl never.

(** ** [sanitize_filename] *)

Module Sanitize.

(** The characters of the class [a-zA-Z0-9_.-]; the pattern of the source is
    its complement. *)
Definition in_class (c : N) : bool :=
  ((97 <=? c) && (c <=? 122))      (* a-z *)
  || ((65 <=? c) && (c <=? 90))    (* A-Z *)
  || ((48 <=? c) && (c <=? 57))    (* 0-9 *)
  || (c =? 95)                     (* _ *)
  || (c =? 46)                     (* . *)
  || (c =? 45).                    (* - *)

(** [re.sub(r'[^a-zA-Z0-9_.-]', '_', name)]: every code point outside the
    class, one at a time, becomes an underscore. *)
Definition re_sub (name : str) : str :=
  (fun c => if in_class c then c else 95) <$> name.

(** [str.lower] on the ASCII letters.  Code points above 127 are left as they
    are: [sanitize_filename] lowers the output of [re_sub] only, which holds
    no such code point ([re_sub_ascii], [lower_agrees]). *)
Definition lower_char (c : N) : N :=
  if (65 <=? c) && (c <=? 90) then c + 32 else c.

Definition lower (s : str) : str := lower_char <$> s.

Definition sanitize_filename (name : str) : str := lower (re_sub name).

(** The class [a-z0-9_.-] of the specification. *)
Definition safe_char (c : N) : bool :=
  ((97 <=? c) && (c <=? 122))
  || ((48 <=? c) && (c <=? 57))
  || (c =? 95) || (c =? 46) || (c =? 45).

End Sanitize.

Import Sanitize.

(** ** Paths and identifiers *)

Module Paths.

(** [s.startswith(p)] and [s.endswith(p)]. *)
Fixpoint startswith (s p : str) {struct p} : bool :=
  match p, s with
  | [], _ => true
  | _ :: _, [] => false
  | c :: p', d :: s' => (c =? d) && startswith s' p'
  end.

Definition endswith (s p : str) : bool := startswith (rev s) (rev p).

(** [os.path.join(a, b)] of [posixpath]: an absolute second component
    replaces the first, and a separator is added unless the first component
    is empty or ends in one. *)
Definition path_join (a b : str) : str :=
  if startswith b (py "/") then b
  else if bool_decide (a = []) || endswith a (py "/") then a ++ b
  else a ++ py "/" ++ b.

Definition output_dir (class_num : str) : str :=
  path_join (py "downloads") (py "class_" ++ class_num).

Definition book_id (class_num subject title : str) : str :=
  py "c" ++ class_num ++ py "_" ++ sanitize_filename subject
         ++ py "_" ++ sanitize_filename title.

Definition pdf_filename (subject title : str) : str :=
  sanitize_filename subject ++ py "_" ++ sanitize_filename title ++ py ".pdf".

Definition pdf_path (class_num subject title : str) : str :=
  path_join (output_dir class_num) (pdf_filename subject title).

Definition zip_path (class_num : str) : str :=
  path_join (output_dir class_num) (py "temp.zip").

End Paths.

Import Paths.

(** ** Exceptions *)

Inductive exn :=
| SystemExit               (* argparse rejects the arguments *)
| TimeoutException         (* selenium: [wait.until] gave up *)
| NoSuchElementException   (* selenium: [find_element], [select_by_visible_text] *)
| KeyError
| ValueError
| HTTPError                (* requests: [raise_for_status] *)
| ConnectionError          (* requests *)
| ChunkedEncodingError     (* requests: the stream broke in [iter_content] *)
| BadZipFile               (* zipfile *)
| RuntimeError             (* zipfile: encrypted member *)
| NotImplementedError      (* zipfile: unsupported compression *)
| ZlibError                (* zlib.error while inflating *)
| OSError.

(** [isinstance(e, requests.exceptions.RequestException)]. *)
Definition is_RequestException (e : exn) : bool :=
  match e with
  | HTTPError | ConnectionError | ChunkedEncodingError => true
  | _ => false
  end.

(** [isinstance(e, zipfile.BadZipFile)]. *)
Definition is_BadZipFile (e : exn) : bool :=
  match e with BadZipFile => true | _ => false end.

(** ** Data *)

Abbreviation bytes := (list byte).

(** An entry of [books_to_process]. *)
Record book := { subject : str; title : str }.

(** The dictionary returned by [download_and_extract]. *)
Record metadata := { md_id : str; md_pdf_path : str; md_sha256 : str }.

(** An entry of [books_to_track]. *)
Record book_entry := {
  be_id : str;
  be_class : Z;
  be_subject : str;
  be_title : str;
  be_pdf_path : str;
  be_download_url : str
}.

(** A file is what was written to it: bytes (mode ['wb'], and a file just
    opened for writing), or the value handed to [json.dump]. *)
Inductive file :=
| Binary (b : bytes)
| BooksJson (l : list book_entry)
| HashesJson (m : gmap str str).

(** Effects, in the order they happen. *)
Inductive event :=
| EvNavigate (b : book)       (* the browser is driven to the book's detail view *)
| EvGet (url : str)           (* [requests.get] *)
| EvOpenW (p : str)           (* [open(p, 'w')], [open(p, 'wb')]: create or truncate *)
| EvWrite (p : str)           (* [f.write], [json.dump] *)
| EvReadMember (name : str)   (* [source.read()] on an archive member *)
| EvRemove (p : str)          (* [os.remove] *)
| EvQuit.                     (* [driver.quit()] *)

Record state := { fs : gmap str file; trace : list event }.

(** ** The outside world *)

(** What [zip_ref.open(name)] followed by [source.read()] does. *)
Inductive member_data :=
| OpenRaises (e : exn)    (* [zip_ref.open] raises: bad local header, encryption, ... *)
| ReadRaises (e : exn)    (* [source.read] raises: bad CRC-32, broken stream *)
| ReadOk (content : bytes).

(** A [zipfile.ZipInfo]: the name of an entry of the archive, its recorded
    uncompressed size, and what opening and reading it does. *)
Record ZipInfo := {
  zi_filename : str;
  zi_file_size : N;
  zi_data : member_data
}.

(** An open [zipfile.ZipFile]: its entries, in archive order.  Nothing keeps
    two entries from having the same name. *)
Record ZipFile := { filelist : list ZipInfo }.

(** [zip_ref.namelist()]. *)
Definition namelist (z : ZipFile) : list str := zi_filename <$> filelist z.

(** The dictionary the library fills while it reads the directory of the
    archive, [self.NameToInfo[x.filename] = x] for every entry in turn: of
    the entries with one name, the last is kept. *)
Definition NameToInfo (z : ZipFile) : gmap str ZipInfo :=
  foldl (fun m x => <[zi_filename x := x]> m) ∅ (filelist z).

(** [zip_ref.getinfo(name)]; [None] stands for its [KeyError]. *)
Definition getinfo (z : ZipFile) (name : str) : option ZipInfo :=
  NameToInfo z !! name.

(** [zip_ref.getinfo(name).file_size].  The scraper asks for names of
    [namelist] only, which [getinfo] knows ([getinfo_namelist]). *)
Definition file_size (z : ZipFile) (name : str) : N :=
  match getinfo z name with
  | Some info => zi_file_size info
  | None => 0
  end.

(** [zip_ref.open(name)], which starts with [getinfo(name)], and
    [source.read()]. *)
Definition member (z : ZipFile) (name : str) : member_data :=
  match getinfo z name with
  | Some info => zi_data info
  | None => OpenRaises KeyError
  end.

(** What the detail view holds after the form was submitted (lines 91-111):
    navigation raised, the parsed page has no anchor with the download text,
    or it has one, with or without an [href]. *)
Inductive nav_result :=
| NavRaises (e : exn)
| NoAnchor
| Anchor (href : option str).

(** What [requests.get(url, stream=True)], [raise_for_status] and
    [iter_content] do: the request raises, the status is an error, or the
    body arrives in chunks, and the stream may break after them. *)
Inductive http_result :=
| GetRaises (e : exn)
| BadStatus
| Body (chunks : list bytes) (broken : option exn).

(** What [open(p, 'w')] and [json.dump] do to a manifest file: the file
    cannot be opened and stays as it was, the dump breaks off after some
    bytes, or the value is written. *)
Inductive persist_result :=
| OpenFails (e : exn)
| DumpFails (partial : bytes) (e : exn)
| Written.

(** The oracles.  Those of the web site and of the manifest files are asked
    at a time (the number of effects so far), so that the same request can
    be answered differently later in the run. *)
Record World := {
  browser_up : option exn;     (* lines 47-48: the driver is installed and started *)
  first_page : option exn;     (* line 49: [driver.get(BASE_URL)] *)
  subject_options : str -> exn + list str;        (* by class name *)
  book_options : str -> str -> exn + list str;    (* by class name and subject *)
  detail_page : nat -> book -> nav_result;
  http_get : nat -> str -> http_result;
  zip_open : bytes -> exn + ZipFile;              (* [zipfile.ZipFile(path, 'r')] *)
  sha256_hexdigest : bytes -> str;                (* [hashlib.sha256(b).hexdigest()] *)
  persist : nat -> str -> persist_result          (* by path *)
}.

(** ** State and exceptions *)

Inductive result (A : Type) :=
| Ret (a : A)
| Raise (e : exn).
Arguments Ret {A} a.
Arguments Raise {A} e.

Definition M (A : Type) : Type := state -> result A * state.

Definition ret {A} (a : A) : M A := fun st => (Ret a, st).

Definition raise {A} (e : exn) : M A := fun st => (Raise e, st).

Definition bind {A B} (m : M A) (k : A -> M B) : M B :=
  fun st =>
    match m st with
    | (Ret a, st') => k a st'
    | (Raise e, st') => (Raise e, st')
    end.

#[global] Instance M_ret : MRet M := @ret.
#[global] Instance M_bind : MBind M := fun A B k m => bind m k.

(** [try: body / except ...:]; the handler says which exceptions it takes. *)
Definition try_except {A} (body : M A) (handler : exn -> option (M A)) : M A :=
  fun st =>
    match body st with
    | (Ret a, st') => (Ret a, st')
    | (Raise e, st') =>
        match handler e with
        | Some h => h st'
        | None => (Raise e, st')
        end
    end.

(** [try: body / finally: cleanup]. *)
Definition try_finally {A} (body : M A) (cleanup : M unit) : M A :=
  fun st =>
    match body st with
    | (r, st') =>
        match cleanup st' with
        | (Ret _, st'') => (r, st'')
        | (Raise e, st'') => (Raise e, st'')
        end
    end.

Definition emit (e : event) : M unit :=
  fun st => (Ret tt, {| fs := fs st; trace := trace st ++ [e] |}).

(** The answer of an oracle at the present time. *)
Definition ask {A} (f : nat -> A) : M A :=
  fun st => (Ret (f (length (trace st))), st).

Definition update_fs (f : gmap str file -> gmap str file) : M unit :=
  fun st => (Ret tt, {| fs := f (fs st); trace := trace st |}).

(** [open(p, 'w')] and [open(p, 'wb')]: the file exists and is empty. *)
Definition open_w (p : str) : M unit :=
  update_fs (insert p (Binary []));; emit (EvOpenW p).

(** [f.write(data)] on a file opened in mode ['wb']. *)
Definition append (data : bytes) (f : file) : file :=
  match f with
  | Binary b => Binary (b ++ data)
  | _ => Binary data
  end.

Definition write_bytes (p : str) (data : bytes) : M unit :=
  update_fs (alter (append data) p);; emit (EvWrite p).

(** [json.dump(value, f)] on a file just opened. *)
Definition json_dump (p : str) (value : file) : M unit :=
  update_fs (insert p value);; emit (EvWrite p).

(** [if os.path.exists(p): os.remove(p)]. *)
Definition remove_if_exists (p : str) : M unit :=
  fun st =>
    match fs st !! p with
    | Some _ => (update_fs (delete p);; emit (EvRemove p)) st
    | None => (Ret tt, st)
    end.

(** The bytes of a file opened for reading. *)
Definition read_file (p : str) : M bytes :=
  fun st =>
    match fs st !! p with
    | Some (Binary b) => (Ret b, st)
    | _ => (Raise OSError, st)
    end.

Fixpoint for_each {A} (f : A -> M unit) (l : list A) : M unit :=
  match l with
  | [] => mret tt
  | x :: l' => f x;; for_each f l'
  end.

(** ** [download_and_extract] *)

(** [max(l, key=key)]: the first element with the greatest key; [None] stands
    for the [ValueError] on an empty list. *)
Fixpoint max_from {A} (key : A -> N) (best : A) (l : list A) : A :=
  match l with
  | [] => best
  | x :: l' => max_from key (if key best <? key x then x else best) l'
  end.

Definition py_max {A} (key : A -> N) (l : list A) : option A :=
  match l with
  | [] => None
  | x :: l' => Some (max_from key x l')
  end.

(** [f.lower().endswith('.pdf')].  Only the last four code points decide, and
    no code point outside ASCII lowers to one of [.], [p], [d], [f], so the
    ASCII lowering is enough here too. *)
Definition is_pdf (f : str) : bool := endswith (lower f) (py ".pdf").

Definition pdf_files (z : ZipFile) : list str := List.filter is_pdf (namelist z).

Definition main_pdf_name (z : ZipFile) : option str :=
  py_max (file_size z) (pdf_files z).

(** [download_and_extract] returns [None] on three paths; the tag tells which
    message the path printed. *)
Inductive failure :=
| DownloadFailed   (* "Failed to download ..." *)
| CorruptZip       (* "Failed to open zip file. It may be corrupt." *)
| NoPdfFound.      (* "No PDF found in ... Skipping." *)

Inductive outcome :=
| Saved (md : metadata)
| Skipped (why : failure).

(** The value the Python function returns. *)
Definition returned (o : outcome) : option metadata :=
  match o with
  | Saved md => Some md
  | Skipped _ => None
  end.

(** Lines 160-164. *)
Definition fetch (w : World) (url zp : str) : M unit :=
  r ← ask (fun t => http_get w t url);
  emit (EvGet url);;
  match r with
  | GetRaises e => raise e
  | BadStatus => raise HTTPError
  | Body chunks broken =>
      open_w zp;;
      for_each (write_bytes zp) chunks;;
      match broken with
      | Some e => raise e
      | None => mret tt
      end
  end.

(** Lines 167-187. *)
Definition extract (w : World) (class_num subject title : str) : M outcome :=
  b ← read_file (zip_path class_num);
  match zip_open w b with
  | inl e => raise e
  | inr zip_ref =>
      match main_pdf_name zip_ref with
      | None => mret (Skipped NoPdfFound)
      | Some name =>
          let target := pdf_path class_num subject title in
          match member zip_ref name with
          | OpenRaises e => raise e
          | ReadRaises e =>
              open_w target;; emit (EvReadMember name);; raise e
          | ReadOk pdf_content =>
              open_w target;;
              emit (EvReadMember name);;
              write_bytes target pdf_content;;
              mret (Saved {| md_id := book_id class_num subject title;
                             md_pdf_path := target;
                             md_sha256 := sha256_hexdigest w pdf_content |})
          end
      end
  end.

(** [os.makedirs] touches directories only, which the file map does not
    hold. *)
Definition download_and_extract (w : World) (url class_num subject title : str)
  : M outcome :=
  try_finally
    (try_except
       (fetch w url (zip_path class_num);; extract w class_num subject title)
       (fun e =>
          if is_RequestException e then Some (mret (Skipped DownloadFailed))
          else if is_BadZipFile e then Some (mret (Skipped CorruptZip))
          else None))
    (remove_if_exists (zip_path class_num)).

(** ** [write_manifests] *)

Definition books_json : str := py "books_to_track.json".
Definition hashes_json : str := py "hashes.json".

(** [with open(p, 'w') as f: json.dump(value, f, indent=2)]. *)
Definition write_json (w : World) (p : str) (value : file) : M unit :=
  r ← ask (fun t => persist w t p);
  match r with
  | OpenFails e => raise e
  | DumpFails partial e => open_w p;; write_bytes p partial;; raise e
  | Written => open_w p;; json_dump p value
  end.

Definition write_manifests (w : World) (books_to_track : list book_entry)
    (hashes_data : gmap str str) : M unit :=
  write_json w books_json (BooksJson books_to_track);;
  write_json w hashes_json (HashesJson hashes_data).

(** ** [main] *)

Definition CLASS_MAP : list (str * str) :=
  [ (py "1", py "Class I"); (py "2", py "Class II"); (py "3", py "Class III");
    (py "4", py "Class IV"); (py "5", py "Class V"); (py "6", py "Class VI");
    (py "7", py "Class VII"); (py "8", py "Class VIII"); (py "9", py "Class IX");
    (py "10", py "Class X"); (py "11", py "Class XI"); (py "12", py "Class XII") ].

Fixpoint assoc (k : str) (l : list (str * str)) : option str :=
  match l with
  | [] => None
  | (k', v) :: l' => if bool_decide (k = k') then Some v else assoc k l'
  end.

(** [int(s)] on decimal ASCII digits, the only strings that reach it: the
    class number is a key of [CLASS_MAP]. *)
Fixpoint int_digits (acc : N) (s : str) : option N :=
  match s with
  | [] => Some acc
  | c :: s' =>
      if (48 <=? c) && (c <=? 57) then int_digits (10 * acc + (c - 48)) s'
      else None
  end.

Definition py_int (s : str) : option Z :=
  match s with
  | [] => None
  | _ => Z.of_N <$> int_digits 0 s
  end.

(** Step 1: the subjects of the class, and the titles of every subject. *)
Fixpoint gather_titles (w : World) (class_name : str) (subjects : list str)
    (books_to_process : list book) : exn + list book :=
  match subjects with
  | [] => inr books_to_process
  | subject_name :: rest =>
      match book_options w class_name subject_name with
      | inl e => inl e
      | inr titles =>
          gather_titles w class_name rest
            (books_to_process
               ++ ((fun t => {| subject := subject_name; title := t |}) <$> titles))
      end
  end.

Definition gather (w : World) (class_name : str) : M (list book) :=
  match subject_options w class_name with
  | inl e => raise e
  | inr subjects =>
      match gather_titles w class_name subjects [] with
      | inl e => raise e
      | inr books => mret books
      end
  end.

Definition download_url_of (relative_url : str) : str :=
  py "https://ncert.nic.in/" ++ relative_url.

(** The two accumulators of Step 2. *)
Abbreviation manifests := (list book_entry * gmap str str)%type.

(** The [book_entry] dictionary of lines 123-130. *)
Definition book_entry_of (b : book) (download_url : str) (n : Z) (md : metadata) : book_entry :=
  {| be_id := md_id md;
     be_class := n;
     be_subject := subject b;
     be_title := title b;
     be_pdf_path := md_pdf_path md;
     be_download_url := download_url |}.

(** One turn of the loop of Step 2 (lines 87-132). *)
Definition process_book (w : World) (class_number : str) (b : book)
    (acc : manifests) : M manifests :=
  page ← ask (fun t => detail_page w t b);
  emit (EvNavigate b);;
  match page with
  | NavRaises e => raise e
  | NoAnchor => mret acc
  | Anchor None => raise KeyError
  | Anchor (Some relative_url) =>
      let download_url := download_url_of relative_url in
      o ← download_and_extract w download_url class_number (subject b) (title b);
      match returned o with
      | None => mret acc
      | Some md =>
          match py_int class_number with
          | None => raise ValueError
          | Some n =>
              mret (acc.1 ++ [book_entry_of b download_url n md],
                    <[ md_id md := md_sha256 md ]> acc.2)
          end
      end
  end.

Fixpoint process_books (w : World) (class_number : str) (books : list book)
    (acc : manifests) : M manifests :=
  match books with
  | [] => mret acc
  | b :: rest =>
      acc' ← process_book w class_number b acc;
      process_books w class_number rest acc'
  end.

(** The [try] of line 51: Steps 1 to 3, and the [finally] that quits the
    browser. *)
Definition scrape (w : World) (class_number class_name : str) : M unit :=
  try_finally
    (books_to_process ← gather w class_name;
     acc ← process_books w class_number books_to_process ([], ∅);
     write_manifests w acc.1 acc.2)
    (emit EvQuit).

(** [parse_arguments] rejects a class that is no key of [CLASS_MAP]; the
    browser is started and the entry page loaded before the [try]. *)
Definition main (w : World) (class_number : str) : M unit :=
  match assoc class_number CLASS_MAP with
  | None => raise SystemExit
  | Some class_name =>
      match browser_up w with
      | Some e => raise e
      | None =>
          match first_page w with
          | Some e => raise e
          | None => scrape w class_number class_name
          end
      end
  end.

(** ** Vocabulary of the properties *)

(** The path an effect creates, writes or removes. *)
Definition event_path (e : event) : option str :=
  match e with
  | EvOpenW p | EvWrite p | EvRemove p => Some p
  | _ => None
  end.

(** An effect of the loop over the books: the browser is not quit, and a file
    effect is on a path of [P]. *)
Definition quiet (P : str -> Prop) (e : event) : Prop :=
  e <> EvQuit /\ forall p, event_path e = Some p -> P p.

(** [st'] comes after [st]: the trace has grown by quiet effects and the files
    outside [P] are as before. *)
Definition extends (P : str -> Prop) (st st' : state) : Prop :=
  (exists evs, trace st' = trace st ++ evs /\ Forall (quiet P) evs)
  /\ forall p, ~ P p -> fs st' !! p = fs st !! p.

(** A computation is confined to the paths [P]. *)
Definition confined {A} (P : str -> Prop) (m : M A) : Prop :=
  forall st, extends P st (m st).2.

(** What [os.path.join] puts in front of a relative second component. *)
Definition join_prefix (a : str) : str :=
  if bool_decide (a = []) || endswith a (py "/") then a else a ++ py "/".

(** The files the scraper stores are all below [downloads/]. *)
Definition under_downloads (p : str) : Prop :=
  startswith p (py "downloads/") = true.

(** The exception the fetch ends with, if any. *)
Definition fetch_error (w : World) (url : str) (st : state) : option exn :=
  match http_get w (length (trace st)) url with
  | GetRaises e => Some e
  | BadStatus => Some HTTPError
  | Body _ broken => broken
  end.

(** What the [except] clauses make of the result of the [try] body. *)
Definition handled (r : result outcome) : result outcome :=
  match r with
  | Ret o => Ret o
  | Raise e =>
      if is_RequestException e then Ret (Skipped DownloadFailed)
      else if is_BadZipFile e then Ret (Skipped CorruptZip)
      else Raise e
  end.

(** The entry [e] with hash [h] was recorded by this run of the loop over
    [books], started in [st0] with empty accumulators: [e] is the entry of
    a book [b] of the list, and in the state the loop had reached when it
    came to [b] the detail view gave an [href] and the call of
    [download_and_extract] for [b] returned the metadata [e] and [h] are
    made of. *)
Definition recorded_in (w : World) (class_number : str) (books : list book)
    (st0 : state) (e : book_entry) (h : str) : Prop :=
  exists before b after acc1 st1 href md n,
    books = before ++ b :: after
    /\ process_books w class_number before ([], ∅) st0 = (Ret acc1, st1)
    /\ detail_page w (length (trace st1)) b = Anchor (Some href)
    /\ (download_and_extract w (download_url_of href) class_number
          (subject b) (title b)
          {| fs := fs st1; trace := trace st1 ++ [EvNavigate b] |}).1
       = Ret (Saved md)
    /\ py_int class_number = Some n
    /\ e = book_entry_of b (download_url_of href) n md
    /\ h = md_sha256 md.

(** The accumulators hold entries recorded by this run only. *)
Definition recorded_only (w : World) (class_number : str) (books : list book)
    (st0 : state) (acc : manifests) : Prop :=
  (forall e, e ∈ acc.1 -> exists h, recorded_in w class_number books st0 e h)
  /\ forall id h, acc.2 !! id = Some h ->
       exists e, e ∈ acc.1 /\ be_id e = id
                 /\ recorded_in w class_number books st0 e h.

(** The effects of a flush that goes through. *)
Definition flush_events : list event :=
  [EvOpenW books_json; EvWrite books_json; EvOpenW hashes_json; EvWrite hashes_json].

(** An effect that leaves the manifest files alone. *)
Definition spares_manifests (e : event) : Prop :=
  event_path e <> Some books_json /\ event_path e <> Some hashes_json.

(** The entries of the archive whose name ends in ".pdf", in archive order,
    and the entry that is opened for the name [max] chose. *)
Definition pdf_entries (z : ZipFile) : list ZipInfo :=
  List.filter (fun info => is_pdf (zi_filename info)) (filelist z).

Definition main_pdf_entry (z : ZipFile) : option ZipInfo :=
  name ← main_pdf_name z; getinfo z name.

(** The normalization the specification asks for (section 6), written from
    its words and not from the code: a reference is absolute when it names
    its scheme; a relative reference is resolved against the origin of the
    site, an absolute one is used as it is. *)
Definition is_absolute_reference (h : str) : bool :=
  startswith h (py "http://") || startswith h (py "https://").

Definition normalized_reference (h : str) : str :=
  if is_absolute_reference h then h
  else if startswith h (py "/") then py "https://ncert.nic.in" ++ h
  else py "https://ncert.nic.in/" ++ h.

(** ** Sample worlds *)

Module Samples.

(** The bytes of the PDF in the archive, and of an output file of an earlier
    run. *)
Definition book_pdf : bytes := [x25; x50; x44; x46].
Definition old_pdf : bytes := [x25; x50; x44; x46; x2d; x31].

(** The body of the response, in two chunks. *)
Definition archive_bytes : list bytes := [[x50; x4b]; [x03; x04]].

Definition href : str := py "textbook/pdf/book.zip".
Definition url : str := download_url_of href.

(** A stand-in for the hash: the bytes themselves, as numbers. *)
Definition toy_digest (b : bytes) : str := Byte.to_N <$> b.

(** An archive with a cover image and one PDF. *)
Definition good_zip : ZipFile :=
  {| filelist :=
       [ {| zi_filename := py "cover.jpg"; zi_file_size := 10;
            zi_data := ReadOk book_pdf |};
         {| zi_filename := py "book.pdf"; zi_file_size := 500;
            zi_data := ReadOk book_pdf |} ] |}.

(** An archive without a PDF. *)
Definition no_pdf_zip : ZipFile :=
  {| filelist :=
       [ {| zi_filename := py "cover.jpg"; zi_file_size := 10; zi_data := ReadOk [] |};
         {| zi_filename := py "readme.txt"; zi_file_size := 10;
            zi_data := ReadOk [] |} ] |}.

(** An archive whose PDF fails its CRC-32 check when read. *)
Definition bad_crc_zip : ZipFile :=
  {| filelist :=
       [ {| zi_filename := py "book.pdf"; zi_file_size := 500;
            zi_data := ReadRaises BadZipFile |} ] |}.

(** A catalogue with one subject, "S", and the given titles; the browser
    comes up, the entry page loads and the manifest files can be written. *)
Definition world_of (books : list str) (page : nat -> book -> nav_result)
    (get : nat -> str -> http_result) (z : bytes -> exn + ZipFile) : World :=
  {| browser_up := None;
     first_page := None;
     subject_options := fun _ => inr [py "S"];
     book_options := fun _ _ => inr books;
     detail_page := page;
     http_get := get;
     zip_open := z;
     sha256_hexdigest := toy_digest;
     persist := fun _ _ => Written |}.

(** Every detail view links to the archive, and every request is served. *)
Definition linked : nat -> book -> nav_result := fun _ _ => Anchor (Some href).
Definition served : nat -> str -> http_result := fun _ _ => Body archive_bytes None.

Definition good_world : World := world_of [py "T"] linked served (fun _ => inr good_zip).
Definition no_pdf_world : World := world_of [py "T"] linked served (fun _ => inr no_pdf_zip).
Definition bad_crc_world : World := world_of [py "T"] linked served (fun _ => inr bad_crc_zip).

(** The stream breaks after the first chunk. *)
Definition broken_world : World :=
  world_of [py "T"] linked
    (fun _ _ => Body [[x50; x4b]] (Some ChunkedEncodingError))
    (fun _ => inr good_zip).

Definition empty : state := {| fs := ∅; trace := [] |}.

(** A disk that already holds an output file and a stale temporary file for
    class 1, subject S, title T. *)
Definition used : state :=
  {| fs := {[ pdf_path (py "1") (py "S") (py "T") := Binary old_pdf;
              zip_path (py "1") := Binary [x00] ]};
     trace := [] |}.

End Samples.

(** ** Colliding entries *)

Module Collision.

(** Every download is answered with other bytes, and the archive holds one
    PDF made of the bytes that were fetched. *)
Definition echo_zip (b : bytes) : ZipFile :=
  {| filelist :=
       [ {| zi_filename := py "book.pdf"; zi_file_size := N.of_nat (length b);
            zi_data := ReadOk b |} ] |}.

Definition changing_world : World :=
  Samples.world_of [py "Part 1"; py "Part_1"] Samples.linked
    (fun t _ => Body [[Byte.x25]; [if (t <? 5)%nat then Byte.x31 else Byte.x32]] None)
    (fun b => inr (echo_zip b)).

(** Two titles that differ before sanitizing only. *)
Definition first : book := {| subject := py "Maths"; title := py "Part 1" |}.
Definition second : book := {| subject := py "Maths"; title := py "Part_1" |}.

(** The accumulators after both books were saved. *)
Definition both : manifests :=
  let md content :=
    {| md_id := py "c9_maths_part_1";
       md_pdf_path := py "downloads/class_9/maths_part_1.pdf";
       md_sha256 := Samples.toy_digest content |} in
  ([ book_entry_of first Samples.url 9 (md [Byte.x25; Byte.x31]);
     book_entry_of second Samples.url 9 (md [Byte.x25; Byte.x32]) ],
   {[ py "c9_maths_part_1" := Samples.toy_digest [Byte.x25; Byte.x32] ]}).

End Collision.

(** ** A page that never shows the download link *)

Module Stuck.

Definition first : book := {| subject := py "S"; title := py "T1" |}.
Definition second : book := {| subject := py "S"; title := py "T2" |}.

(** The detail view of the first book never shows the link, and the wait of
    line 106 gives up; the second book is in order. *)
Definition world : World :=
  Samples.world_of [py "T1"; py "T2"]
    (fun _ b => if bool_decide (title b = py "T1") then NavRaises TimeoutException
                else Samples.linked 0%nat b)
    Samples.served (fun _ => inr Samples.good_zip).

(** The entry the second book would get. *)
Definition saved_second : book_entry :=
  book_entry_of second Samples.url 1
    {| md_id := py "c1_s_t2";
       md_pdf_path := py "downloads/class_1/s_t2.pdf";
       md_sha256 := Samples.toy_digest Samples.book_pdf |}.

End Stuck.

(** ** Further vocabulary *)

(** What a call of [download_and_extract] made at time [t] returns or raises,
    read off the answers of the world alone. *)
Definition outcome_of (w : World) (url class_num subject title : str) (t : nat)
  : result outcome :=
  match http_get w t url with
  | GetRaises e => handled (Raise e)
  | BadStatus => handled (Raise HTTPError)
  | Body _ (Some e) => handled (Raise e)
  | Body chunks None =>
      match zip_open w (concat chunks) with
      | inl e => handled (Raise e)
      | inr zip_ref =>
          match main_pdf_name zip_ref with
          | None => Ret (Skipped NoPdfFound)
          | Some name =>
              match member zip_ref name with
              | OpenRaises e | ReadRaises e => handled (Raise e)
              | ReadOk pdf_content =>
                  Ret (Saved {| md_id := book_id class_num subject title;
                                md_pdf_path := pdf_path class_num subject title;
                                md_sha256 := sha256_hexdigest w pdf_content |})
              end
          end
      end
  end.

(** The catalogue entry a manifest entry was made from. *)
Definition book_of (e : book_entry) : book :=
  {| subject := be_subject e; title := be_title e |}.

(** The books Step 1 gathers from the subjects and the titles of each. *)
Definition books_of (subjects : list str) (titles : list (list str)) : list book :=
  concat (zip_with (fun s ts => (fun t => {| subject := s; title := t |}) <$> ts)
            subjects titles).

(** A manifest entry is well formed for a class and an index when its
    identifier and path are those derived from its subject and title, its
    class is the number of the class, its archive reference is the site
    prefix followed by some [href], and the index has its identifier. *)
Definition well_formed_entry (class_number : str) (hashes : gmap str str)
    (e : book_entry) : Prop :=
  be_id e = book_id class_number (be_subject e) (be_title e)
  /\ be_pdf_path e = pdf_path class_number (be_subject e) (be_title e)
  /\ py_int class_number = Some (be_class e)
  /\ (exists href, be_download_url e = py "https://ncert.nic.in/" ++ href)
  /\ is_Some (hashes !! be_id e).

Definition well_formed (class_number : str) (acc : manifests) : Prop :=
  Forall (well_formed_entry class_number acc.2) acc.1
  /\ (size acc.2 <= length acc.1)%nat.

(** ** More sample worlds *)

Module More.

(** The archive is not a zip file. *)
Definition corrupt_world : World :=
  Samples.world_of [py "T"] Samples.linked Samples.served (fun _ => inl BadZipFile).

(** On every detail view the browser finds the link text, but the parser
    finds no anchor whose string matches (the branch of lines 113-115). *)
Definition unlinked_world : World :=
  Samples.world_of [py "T1"; py "T2"] (fun _ _ => NoAnchor) Samples.served
    (fun _ => inr Samples.good_zip).

(** Two subjects; the titles of the second never load. *)
Definition half_world : World :=
  {| browser_up := None;
     first_page := None;
     subject_options := fun _ => inr [py "S1"; py "S2"];
     book_options := fun _ s =>
       if bool_decide (s = py "S1") then inr [py "T"] else inl TimeoutException;
     detail_page := Samples.linked;
     http_get := Samples.served;
     zip_open := fun _ => inr Samples.good_zip;
     sha256_hexdigest := Samples.toy_digest;
     persist := fun _ _ => Written |}.

(** A disk with manifests of an earlier run. *)
Definition with_manifests : state :=
  {| fs := {[ books_json := BooksJson [Stuck.saved_second];
              hashes_json := HashesJson {[ py "c1_s_t2" := py "0" ]} ]};
     trace := [] |}.

End More.

(** ** Sample archives *)

Module Archives.

Definition entry (name : string) (size : N) : ZipInfo :=
  {| zi_filename := py name; zi_file_size := size;
     zi_data := ReadOk (repeat Byte.x00 (N.to_nat size)) |}.

(** Four PDFs, with extensions in several cases, among other files; two of
    them share the greatest size, and a file that is no PDF is larger. *)
Definition mixed : ZipFile :=
  {| filelist := [ entry "notes.txt" 900; entry "a.PDF" 200; entry "Book.Pdf" 500;
                   entry "c.pdf" 500; entry "d.pdf" 10 ] |}.

(** PDFs of 200, 10 and 500 bytes and a larger image. *)
Definition three : ZipFile :=
  {| filelist := [ entry "a.pdf" 200; entry "cover.jpg" 9000; entry "b.Pdf" 10;
                   entry "BOOK.PDF" 500 ] |}.

(** PDFs of 500, 10 and 200 bytes, the first two under one name. *)
Definition twice : ZipFile :=
  {| filelist := [ entry "a.pdf" 500; entry "a.pdf" 10; entry "b.pdf" 200 ] |}.

End Archives.

(** ** A disk that refuses the second manifest *)

Module Flush.

(** Everything goes well until [hashes.json] is opened for writing. *)
Definition world : World :=
  {| browser_up := None;
     first_page := None;
     subject_options := fun _ => inr [py "S"];
     book_options := fun _ _ => inr [py "T"];
     detail_page := Samples.linked;
     http_get := Samples.served;
     zip_open := fun _ => inr Samples.good_zip;
     sha256_hexdigest := Samples.toy_digest;
     persist := fun _ p =>
       if bool_decide (p = hashes_json) then OpenFails OSError else Written |}.

(** The entry of the one book of the catalogue. *)
Definition saved : book_entry :=
  book_entry_of {| subject := py "S"; title := py "T" |} Samples.url 1
    {| md_id := py "c1_s_t";
       md_pdf_path := py "downloads/class_1/s_t.pdf";
       md_sha256 := Samples.toy_digest Samples.book_pdf |}.

End Flush.

(** * Properties *)

(** ** Facts about the sanitizer *)

Ltac bool_to_prop :=
  repeat match goal with
  | H : _ = true |- _ =>
      rewrite ?orb_true_iff, ?andb_true_iff, ?N.leb_le, ?N.eqb_eq in H;
      revert H
  | H : _ = false |- _ =>
      rewrite ?orb_false_iff, ?andb_false_iff, ?N.leb_gt, ?N.eqb_neq in H;
      revert H
  end;
  rewrite ?orb_true_iff, ?andb_true_iff, ?N.leb_le, ?N.eqb_eq.

Lemma in_class_spec (c : N) :
  in_class c = true <->
  (97 <= c <= 122) \/ (65 <= c <= 90) \/ (48 <= c <= 57) \/ c = 95 \/ c = 46 \/ c = 45.
Proof.
  unfold in_class.
  rewrite !orb_true_iff, !andb_true_iff, !N.leb_le, !N.eqb_eq. lia.
Qed.

Lemma safe_char_spec (c : N) :
  safe_char c = true <->
  (97 <= c <= 122) \/ (48 <= c <= 57) \/ c = 95 \/ c = 46 \/ c = 45.
Proof.
  unfold safe_char.
  rewrite !orb_true_iff, !andb_true_iff, !N.leb_le, !N.eqb_eq. lia.
Qed.

Lemma lower_char_spec (c : N) :
  (65 <= c <= 90 /\ lower_char c = c + 32) \/ (~ 65 <= c <= 90 /\ lower_char c = c).
Proof.
  unfold lower_char.
  destruct ((65 <=? c) && (c <=? 90)) eqn:E; bool_to_prop; lia.
Qed.

Lemma sanitize_char_safe (c : N) :
  safe_char (lower_char (if in_class c then c else 95)) = true.
Proof.
  apply safe_char_spec.
  destruct (in_class c) eqn:E.
  - apply in_class_spec in E. destruct (lower_char_spec c) as [[? ->]|[? ->]]; lia.
  - destruct (lower_char_spec 95) as [[? ->]|[? ->]]; lia.
Qed.

Lemma safe_char_fixed (c : N) :
  safe_char c = true -> lower_char (if in_class c then c else 95) = c.
Proof.
  intros H. apply safe_char_spec in H.
  assert (in_class c = true) as -> by (apply in_class_spec; lia).
  destruct (lower_char_spec c) as [[? ->]|[? ->]]; lia.
Qed.

Lemma sanitize_filename_cons (c : N) (x : str) :
  sanitize_filename (c :: x)
  = lower_char (if in_class c then c else 95) :: sanitize_filename x.
Proof. reflexivity. Qed.

Lemma sanitize_filename_safe (x : str) :
  Forall (fun c => safe_char c = true) (sanitize_filename x).
Proof.
  induction x as [|c x IH].
  - constructor.
  - rewrite sanitize_filename_cons. constructor; [apply sanitize_char_safe | exact IH].
Qed.

Lemma sanitize_filename_fixed (y : str) :
  Forall (fun c => safe_char c = true) y -> sanitize_filename y = y.
Proof.
  induction 1 as [|c y Hc _ IH].
  - reflexivity.
  - rewrite sanitize_filename_cons, IH, (safe_char_fixed c Hc). reflexivity.
Qed.

Lemma re_sub_ascii (x : str) : Forall (fun c => c < 128) (re_sub x).
Proof.
  unfold re_sub. apply Forall_fmap, Forall_forall. intros c _. simpl.
  destruct (in_class c) eqn:E; [|lia].
  apply in_class_spec in E. lia.
Qed.

(** Any lowering function that agrees with [lower_char] on ASCII gives the
    same sanitizer. *)
Lemma lower_agrees (lower' : N -> N) (x : str) :
  (forall c, c < 128 -> lower' c = lower_char c) ->
  lower' <$> re_sub x = sanitize_filename x.
Proof.
  intros H. unfold sanitize_filename, lower.
  apply Forall_fmap_ext_1. eapply Forall_impl; [apply re_sub_ascii|].
  intros c Hc. simpl. apply H, Hc.
Qed.

Lemma sanitize_filename_length (x : str) : length (sanitize_filename x) = length x.
Proof. unfold sanitize_filename, lower, re_sub. by rewrite !length_fmap. Qed.

(** ** Running the monad *)

Lemma run_bind {A B} (m : M A) (k : A -> M B) (st : state) :
  (m ≫= k) st
  = match m st with
    | (Ret a, st') => k a st'
    | (Raise e, st') => (Raise e, st')
    end.
Proof. reflexivity. Qed.

Lemma run_ret {A} (a : A) (st : state) : (mret a : M A) st = (Ret a, st).
Proof. reflexivity. Qed.

Lemma run_raise {A} (e : exn) (st : state) : (raise e : M A) st = (Raise e, st).
Proof. reflexivity. Qed.

Lemma run_emit (e : event) (st : state) :
  emit e st = (Ret tt, {| fs := fs st; trace := trace st ++ [e] |}).
Proof. reflexivity. Qed.

Lemma run_ask {A} (f : nat -> A) (st : state) :
  ask f st = (Ret (f (length (trace st))), st).
Proof. reflexivity. Qed.

Lemma run_open_w (p : str) (st : state) :
  open_w p st
  = (Ret tt, {| fs := <[p := Binary []]> (fs st); trace := trace st ++ [EvOpenW p] |}).
Proof. reflexivity. Qed.

Lemma run_write_bytes (p : str) (data : bytes) (st : state) :
  write_bytes p data st
  = (Ret tt, {| fs := alter (append data) p (fs st);
                trace := trace st ++ [EvWrite p] |}).
Proof. reflexivity. Qed.

Lemma run_json_dump (p : str) (v : file) (st : state) :
  json_dump p v st
  = (Ret tt, {| fs := <[p := v]> (fs st); trace := trace st ++ [EvWrite p] |}).
Proof. reflexivity. Qed.

Create Rewrite HintDb run.
#[local] Hint Rewrite @run_bind @run_ret @run_raise run_emit @run_ask
  run_open_w run_write_bytes run_json_dump : run.

Ltac run := repeat (autorewrite with run; cbn [fst snd fs trace]).

Lemma extends_refl P st : extends P st st.
Proof.
  split; [exists []; split; [by rewrite app_nil_r | constructor] | done].
Qed.

Lemma extends_trans P st1 st2 st3 :
  extends P st1 st2 -> extends P st2 st3 -> extends P st1 st3.
Proof.
  intros [(e1 & T1 & F1) K1] [(e2 & T2 & F2) K2]. split.
  - exists (e1 ++ e2). split; [by rewrite T2, T1, app_assoc | by apply Forall_app].
  - intros p Hp. by rewrite K2, K1.
Qed.

Lemma confined_ret {A} P (a : A) : confined P (mret a).
Proof. intros st. apply extends_refl. Qed.

Lemma confined_raise {A} P e : confined P (raise e : M A).
Proof. intros st. apply extends_refl. Qed.

Lemma confined_bind {A B} P (m : M A) (k : A -> M B) :
  confined P m -> (forall a, confined P (k a)) -> confined P (m ≫= k).
Proof.
  intros Hm Hk st. rewrite run_bind. specialize (Hm st).
  destruct (m st) as [[a|e] st']; simpl in *; [|done].
  eapply extends_trans; [exact Hm | apply Hk].
Qed.

Lemma confined_try_except {A} P (body : M A) handler :
  confined P body ->
  (forall e h, handler e = Some h -> confined P h) ->
  confined P (try_except body handler).
Proof.
  intros Hb Hh st. unfold try_except. specialize (Hb st).
  destruct (body st) as [[a|e] st']; simpl in *; [done|].
  destruct (handler e) as [h|] eqn:E; [|done].
  eapply extends_trans; [exact Hb | apply (Hh e h E)].
Qed.

Lemma confined_try_finally {A} P (body : M A) cleanup :
  confined P body -> confined P cleanup -> confined P (try_finally body cleanup).
Proof.
  intros Hb Hc st. unfold try_finally. specialize (Hb st).
  destruct (body st) as [r st']. specialize (Hc st'). simpl in *.
  destruct (cleanup st') as [[[]|e] st'']; simpl in *; by eapply extends_trans.
Qed.

Lemma confined_emit P e : quiet P e -> confined P (emit e).
Proof.
  intros He st. split; [|done].
  exists [e]. split; [done | by constructor].
Qed.

Lemma confined_ask {A} P (f : nat -> A) : confined P (ask f).
Proof. intros st. apply extends_refl. Qed.

Lemma confined_update_fs P f :
  (forall m p, ~ P p -> f m !! p = m !! p) -> confined P (update_fs f).
Proof.
  intros Hf st. split; [|intros p Hp; by apply Hf].
  exists []. split; [by rewrite app_nil_r | constructor].
Qed.

Lemma confined_mono {A} (P Q : str -> Prop) (m : M A) :
  (forall p, P p -> Q p) -> confined P m -> confined Q m.
Proof.
  intros HPQ Hm st. destruct (Hm st) as [(evs & T & F) K]. split.
  - exists evs. split; [done|]. eapply Forall_impl; [exact F|].
    intros e [? He]. split; [done | intros p Hp; by apply HPQ, He].
  - intros p Hp. apply K. intros HP. by apply Hp, HPQ.
Qed.

Lemma confined_open_w (P : str -> Prop) p : P p -> confined P (open_w p).
Proof.
  intros Hp. apply confined_bind; [|intros _; apply confined_emit].
  - apply confined_update_fs. intros m q Hq.
    apply lookup_insert_ne. by intros ->.
  - split; [done | by intros q [= <-]].
Qed.

Lemma confined_write_bytes (P : str -> Prop) p data :
  P p -> confined P (write_bytes p data).
Proof.
  intros Hp. apply confined_bind; [|intros _; apply confined_emit].
  - apply confined_update_fs. intros m q Hq.
    apply lookup_alter_ne. by intros ->.
  - split; [done | by intros q [= <-]].
Qed.

Lemma confined_json_dump (P : str -> Prop) p v : P p -> confined P (json_dump p v).
Proof.
  intros Hp. apply confined_bind; [|intros _; apply confined_emit].
  - apply confined_update_fs. intros m q Hq.
    apply lookup_insert_ne. by intros ->.
  - split; [done | by intros q [= <-]].
Qed.

Lemma confined_remove_if_exists (P : str -> Prop) p :
  P p -> confined P (remove_if_exists p).
Proof.
  intros Hp st. unfold remove_if_exists.
  destruct (fs st !! p) eqn:E; [|apply extends_refl].
  revert st E. 
  assert (confined P (update_fs (delete p);; emit (EvRemove p))) as H.
  { apply confined_bind; [|intros _; apply confined_emit].
    - apply confined_update_fs. intros m q Hq.
      apply lookup_delete_ne. by intros ->.
    - split; [done | by intros q [= <-]]. }
  intros st _. apply H.
Qed.

Lemma confined_read_file P p : confined P (read_file p).
Proof.
  intros st. unfold read_file.
  destruct (fs st !! p) as [[]|]; apply extends_refl.
Qed.

Lemma confined_for_each {A} P (f : A -> M unit) l :
  (forall x, confined P (f x)) -> confined P (for_each f l).
Proof.
  intros Hf. induction l as [|x l IH]; simpl.
  - apply confined_ret.
  - apply confined_bind; [apply Hf | intros _; exact IH].
Qed.

(** ** Paths *)

Lemma path_join_relative (a b : str) :
  startswith b (py "/") = false -> path_join a b = join_prefix a ++ b.
Proof.
  intros H. unfold path_join, join_prefix. rewrite H.
  destruct (bool_decide (a = []) || endswith a (py "/")); [done|].
  by rewrite <- app_assoc.
Qed.

Lemma startswith_slash (c : N) (s : str) :
  c <> 47 -> startswith (c :: s) (py "/") = false.
Proof.
  intros H. change (py "/") with [47]. cbn [startswith].
  rewrite andb_true_r. apply N.eqb_neq. congruence.
Qed.

Lemma pdf_filename_relative (subject title : str) :
  startswith (pdf_filename subject title) (py "/") = false.
Proof.
  unfold pdf_filename. destruct subject as [|c x].
  - change (startswith (95 :: sanitize_filename title ++ py ".pdf") (py "/") = false).
    apply (startswith_slash 95). discriminate.
  - rewrite sanitize_filename_cons, <- app_comm_cons. apply startswith_slash.
    pose proof (sanitize_char_safe c) as H. apply safe_char_spec in H. lia.
Qed.

Lemma output_dir_eq (class_num : str) :
  output_dir class_num = py "downloads/class_" ++ class_num.
Proof. reflexivity. Qed.

Lemma join_prefix_output_dir (class_num : str) :
  exists rest, join_prefix (output_dir class_num) = py "downloads/" ++ rest.
Proof.
  rewrite output_dir_eq. unfold join_prefix.
  destruct (_ || _); eexists; change (py "downloads/class_") with (py "downloads/" ++ py "class_");
    rewrite <- ?app_assoc; reflexivity.
Qed.

Lemma pdf_path_eq (class_num subject title : str) :
  pdf_path class_num subject title
  = join_prefix (output_dir class_num) ++ pdf_filename subject title.
Proof. apply path_join_relative, pdf_filename_relative. Qed.

Lemma zip_path_eq (class_num : str) :
  zip_path class_num = join_prefix (output_dir class_num) ++ py "temp.zip".
Proof. by apply path_join_relative. Qed.

Lemma pdf_path_not_zip_path (class_num subject title : str) :
  pdf_path class_num subject title <> zip_path class_num.
Proof.
  rewrite pdf_path_eq, zip_path_eq. intros H. apply app_inv_head in H.
  unfold pdf_filename in H.
  change (py "temp.zip") with (py "temp" ++ py ".zip") in H.
  rewrite !app_assoc in H. apply app_inj_2 in H; [|done].
  by destruct H as [_ H].
Qed.

Lemma startswith_app (p s : str) : startswith (p ++ s) p = true.
Proof.
  induction p as [|c p IH]; simpl; [by destruct s|].
  by rewrite N.eqb_refl.
Qed.

Lemma pdf_path_under_downloads (class_num subject title : str) :
  under_downloads (pdf_path class_num subject title).
Proof.
  rewrite pdf_path_eq. destruct (join_prefix_output_dir class_num) as [r ->].
  unfold under_downloads. rewrite <- app_assoc. apply startswith_app.
Qed.

Lemma zip_path_under_downloads (class_num : str) :
  under_downloads (zip_path class_num).
Proof.
  rewrite zip_path_eq. destruct (join_prefix_output_dir class_num) as [r ->].
  unfold under_downloads. rewrite <- app_assoc. apply startswith_app.
Qed.

Lemma books_json_not_under_downloads : ~ under_downloads books_json.
Proof. unfold under_downloads. by vm_compute. Qed.

Lemma hashes_json_not_under_downloads : ~ under_downloads hashes_json.
Proof. unfold under_downloads. by vm_compute. Qed.

(** ** [download_and_extract]: how it runs *)

Lemma remove_if_exists_ret (p : str) (st : state) :
  (remove_if_exists p st).1 = Ret tt.
Proof. unfold remove_if_exists. by destruct (fs st !! p). Qed.

Lemma remove_if_exists_gone (p : str) (st : state) :
  fs (remove_if_exists p st).2 !! p = None.
Proof.
  unfold remove_if_exists. destruct (fs st !! p) eqn:E; [|done].
  simpl. apply lookup_delete_eq.
Qed.

Lemma download_and_extract_run w url class_num subject title st :
  download_and_extract w url class_num subject title st
  = let body := (fetch w url (zip_path class_num);;
                 extract w class_num subject title) st in
    (handled body.1, (remove_if_exists (zip_path class_num) body.2).2).
Proof.
  unfold download_and_extract, try_finally, try_except.
  destruct ((fetch w url (zip_path class_num);; extract w class_num subject title) st)
    as [[o|e] st1]; simpl.
  - pose proof (remove_if_exists_ret (zip_path class_num) st1) as H.
    by destruct (remove_if_exists (zip_path class_num) st1) as [[[]|] ?].
  - destruct (is_RequestException e); simpl.
    { pose proof (remove_if_exists_ret (zip_path class_num) st1) as H.
      by destruct (remove_if_exists (zip_path class_num) st1) as [[[]|] ?]. }
    destruct (is_BadZipFile e); simpl;
      pose proof (remove_if_exists_ret (zip_path class_num) st1) as H;
      by destruct (remove_if_exists (zip_path class_num) st1) as [[[]|] ?].
Qed.

Lemma for_each_write_bytes (p : str) (chunks : list bytes) (st : state) (b : bytes) :
  fs st !! p = Some (Binary b) ->
  exists st', for_each (write_bytes p) chunks st = (Ret tt, st')
    /\ fs st' !! p = Some (Binary (b ++ concat chunks)).
Proof.
  revert st b. induction chunks as [|c chunks IH]; intros st b Hb; cbn [for_each concat].
  - exists st. by rewrite app_nil_r.
  - run.
    match goal with |- context [for_each _ _ ?s] =>
      destruct (IH s (b ++ c)) as (st' & -> & H) end.
    { cbn [fs]. by rewrite lookup_alter_eq, Hb. }
    exists st'. by rewrite app_assoc.
Qed.

Lemma fetch_result w url zp st :
  (fetch w url zp st).1
  = match fetch_error w url st with Some e => Raise e | None => Ret tt end.
Proof.
  unfold fetch, fetch_error. run.
  destruct (http_get w (length (trace st)) url) as [e| |chunks broken]; try done.
  run.
  match goal with |- context [for_each _ _ ?s] =>
    destruct (for_each_write_bytes zp chunks s []) as (st' & -> & H) end.
  { cbn [fs]. apply lookup_insert_eq. }
  by destruct broken.
Qed.

Lemma fetch_ok_fs w url zp st chunks :
  http_get w (length (trace st)) url = Body chunks None ->
  exists st', fetch w url zp st = (Ret tt, st')
    /\ fs st' !! zp = Some (Binary (concat chunks)).
Proof.
  intros H. unfold fetch. run. rewrite H. run.
  match goal with |- context [for_each _ _ ?s] =>
    destruct (for_each_write_bytes zp chunks s []) as (st' & -> & H') end.
  { cbn [fs]. apply lookup_insert_eq. }
  run. by exists st'.
Qed.

Lemma confined_fetch w url zp : confined (fun p => p = zp) (fetch w url zp).
Proof.
  unfold fetch. apply confined_bind; [apply confined_ask|]. intros r.
  apply confined_bind; [by apply confined_emit|]. intros _.
  destruct r as [e| |chunks broken]; try apply confined_raise.
  apply confined_bind; [by apply confined_open_w|]. intros _.
  apply confined_bind.
  - apply confined_for_each. intros x. by apply confined_write_bytes.
  - intros _. destruct broken; [apply confined_raise | apply confined_ret].
Qed.

Lemma confined_extract w class_num subject title :
  confined (fun p => p = pdf_path class_num subject title)
    (extract w class_num subject title).
Proof.
  unfold extract. apply confined_bind; [apply confined_read_file|]. intros b.
  destruct (zip_open w b) as [e|z]; [apply confined_raise|].
  destruct (main_pdf_name z) as [name|]; [|apply confined_ret].
  destruct (member z name) as [e|e|content].
  - apply confined_raise.
  - apply confined_bind; [by apply confined_open_w|]. intros _.
    apply confined_bind; [by apply confined_emit | intros _; apply confined_raise].
  - apply confined_bind; [by apply confined_open_w|]. intros _.
    apply confined_bind; [by apply confined_emit|]. intros _.
    apply confined_bind; [by apply confined_write_bytes | intros _; apply confined_ret].
Qed.

Lemma confined_download_and_extract w url class_num subject title :
  confined (fun p => p = zip_path class_num \/ p = pdf_path class_num subject title)
    (download_and_extract w url class_num subject title).
Proof.
  unfold download_and_extract. apply confined_try_finally.
  - apply confined_try_except.
    + apply confined_bind.
      * eapply confined_mono; [|apply confined_fetch]. naive_solver.
      * intros _. eapply confined_mono; [|apply confined_extract]. naive_solver.
    + intros e h. destruct (is_RequestException e); [intros [= <-]; apply confined_ret|].
      destruct (is_BadZipFile e); [intros [= <-]; apply confined_ret | done].
  - apply confined_remove_if_exists. by left.
Qed.

Lemma download_and_extract_zip_removed w url class_num subject title st :
  fs (download_and_extract w url class_num subject title st).2 !! zip_path class_num
  = None.
Proof. rewrite download_and_extract_run. simpl. apply remove_if_exists_gone. Qed.

Lemma extract_run w class_num subject title st b :
  fs st !! zip_path class_num = Some (Binary b) ->
  extract w class_num subject title st
  = match zip_open w b with
    | inl e => (Raise e, st)
    | inr zip_ref =>
        match main_pdf_name zip_ref with
        | None => (Ret (Skipped NoPdfFound), st)
        | Some name =>
            let target := pdf_path class_num subject title in
            let opened :=
              {| fs := <[target := Binary []]> (fs st);
                 trace := trace st ++ [EvOpenW target; EvReadMember name] |} in
            match member zip_ref name with
            | OpenRaises e => (Raise e, st)
            | ReadRaises e => (Raise e, opened)
            | ReadOk pdf_content =>
                (Ret (Saved {| md_id := book_id class_num subject title;
                               md_pdf_path := target;
                               md_sha256 := sha256_hexdigest w pdf_content |}),
                 {| fs := <[target := Binary pdf_content]> (fs st);
                    trace := trace opened ++ [EvWrite target] |})
            end
        end
    end.
Proof.
  intros Hb. unfold extract. rewrite run_bind. unfold read_file. rewrite Hb.
  destruct (zip_open w b) as [e|z]; [done|].
  destruct (main_pdf_name z) as [name|]; [|done].
  destruct (member z name) as [e|e|content]; [done| |]; run.
  - by rewrite <- app_assoc.
  - rewrite <- !app_assoc. repeat f_equal.
    by rewrite alter_insert_eq.
Qed.

(** A successful call, read backwards: the identifier and the path are those
    of the entry, the hash is that of the bytes now at the path. *)
Lemma download_and_extract_saved w url class_num subject title st md :
  (download_and_extract w url class_num subject title st).1 = Ret (Saved md) ->
  exists content,
    md = {| md_id := book_id class_num subject title;
            md_pdf_path := pdf_path class_num subject title;
            md_sha256 := sha256_hexdigest w content |}
    /\ fs (download_and_extract w url class_num subject title st).2
         !! pdf_path class_num subject title = Some (Binary content).
Proof.
  rewrite download_and_extract_run. cbn [fst snd]. rewrite run_bind.
  pose proof (fetch_result w url (zip_path class_num) st) as Hf.
  unfold fetch_error in Hf.
  destruct (http_get w (length (trace st)) url) as [e| |chunks [e|]] eqn:Hg;
    destruct (fetch w url (zip_path class_num) st) as [r st1] eqn:Hfetch;
    cbn [fst] in Hf; subst r; cbn [fst snd handled].
  1-3: by repeat case_match.
  destruct (fetch_ok_fs w url (zip_path class_num) st chunks Hg) as (st1' & E & Hzip).
  rewrite Hfetch in E. injection E as <-.
  rewrite (extract_run _ _ _ _ _ _ Hzip).
  destruct (zip_open w (concat chunks)) as [e|z]; [cbn; by repeat case_match|].
  destruct (main_pdf_name z) as [name|]; [|done].
  destruct (member z name) as [e|e|content]; cbn [fst snd handled].
  1-2: by repeat case_match.
  intros [= <-]. exists content. split; [done|].
  destruct (confined_remove_if_exists (fun p => p = zip_path class_num)
              (zip_path class_num) eq_refl
              {| fs := <[pdf_path class_num subject title := Binary content]> (fs st1);
                 trace := (trace st1 ++ [EvOpenW (pdf_path class_num subject title);
                                         EvReadMember name])
                          ++ [EvWrite (pdf_path class_num subject title)] |})
    as [_ K].
  rewrite K; [apply lookup_insert_eq | apply pdf_path_not_zip_path].
Qed.

(** When the fetch fails with an exception of [requests], only the temporary
    file was touched. *)
Lemma download_and_extract_fetch_fails w url class_num subject title st e :
  fetch_error w url st = Some e ->
  is_RequestException e = true ->
  let r := download_and_extract w url class_num subject title st in
  r.1 = Ret (Skipped DownloadFailed)
  /\ extends (fun p => p = zip_path class_num) st r.2.
Proof.
  intros He Hr. rewrite download_and_extract_run. cbn [fst snd]. rewrite run_bind.
  pose proof (fetch_result w url (zip_path class_num) st) as Hf.
  pose proof (confined_fetch w url (zip_path class_num) st) as Hc.
  rewrite He in Hf.
  destruct (fetch w url (zip_path class_num) st) as [r st1].
  cbn [fst snd] in *. subst r. cbn [fst snd handled]. rewrite Hr. split; [done|].
  eapply extends_trans; [exact Hc|]. by apply confined_remove_if_exists.
Qed.

Lemma download_and_extract_no_pdf w url class_num subject title st chunks z :
  http_get w (length (trace st)) url = Body chunks None ->
  zip_open w (concat chunks) = inr z ->
  pdf_files z = [] ->
  let r := download_and_extract w url class_num subject title st in
  r.1 = Ret (Skipped NoPdfFound)
  /\ extends (fun p => p = zip_path class_num) st r.2.
Proof.
  intros Hg Hz Hp. rewrite download_and_extract_run. cbn [fst snd]. rewrite run_bind.
  pose proof (confined_fetch w url (zip_path class_num) st) as Hc.
  destruct (fetch_ok_fs w url (zip_path class_num) st chunks Hg) as (st1 & E & Hzip).
  rewrite E in *. cbn [fst snd] in *.
  rewrite (extract_run _ _ _ _ _ _ Hzip), Hz.
  unfold main_pdf_name. rewrite Hp. cbn [py_max fst snd handled]. split; [done|].
  eapply extends_trans; [exact Hc|]. by apply confined_remove_if_exists.
Qed.

(** When reading the chosen member raises, the destination has already been
    opened for writing. *)
Lemma download_and_extract_read_raises w url class_num subject title st chunks z name e :
  http_get w (length (trace st)) url = Body chunks None ->
  zip_open w (concat chunks) = inr z ->
  main_pdf_name z = Some name ->
  member z name = ReadRaises e ->
  let r := download_and_extract w url class_num subject title st in
  r.1 = handled (Raise e)
  /\ fs r.2 !! pdf_path class_num subject title = Some (Binary []).
Proof.
  intros Hg Hz Hn Hm. rewrite download_and_extract_run. cbn [fst snd]. rewrite run_bind.
  destruct (fetch_ok_fs w url (zip_path class_num) st chunks Hg) as (st1 & E & Hzip).
  rewrite E. cbn [fst snd].
  rewrite (extract_run _ _ _ _ _ _ Hzip), Hz, Hn, Hm. cbn [fst snd]. split; [done|].
  match goal with |- fs (remove_if_exists ?p ?s).2 !! _ = _ =>
    destruct (confined_remove_if_exists (fun q => q = p) p eq_refl s) as [_ K] end.
  rewrite K; [apply lookup_insert_eq | apply pdf_path_not_zip_path].
Qed.

(** ** The loop of Step 2 *)

Lemma process_book_run w class_number b acc st :
  process_book w class_number b acc st
  = let st0 := {| fs := fs st; trace := trace st ++ [EvNavigate b] |} in
    match detail_page w (length (trace st)) b with
    | NavRaises e => (Raise e, st0)
    | NoAnchor => (Ret acc, st0)
    | Anchor None => (Raise KeyError, st0)
    | Anchor (Some relative_url) =>
        let url := download_url_of relative_url in
        let r := download_and_extract w url class_number (subject b) (title b) st0 in
        match r.1 with
        | Raise e => (Raise e, r.2)
        | Ret (Skipped _) => (Ret acc, r.2)
        | Ret (Saved md) =>
            match py_int class_number with
            | None => (Raise ValueError, r.2)
            | Some n =>
                (Ret (acc.1 ++ [book_entry_of b url n md], <[md_id md := md_sha256 md]> acc.2),
                 r.2)
            end
        end
    end.
Proof.
  unfold process_book. run.
  destruct (detail_page w (length (trace st)) b) as [e| |[href|]]; run; try done.
  destruct (download_and_extract _ _ _ _ _ _) as [[[md|why]|e] st1]; cbn; try done.
  by destruct (py_int class_number).
Qed.

Lemma confined_process_book w class_number b acc :
  confined under_downloads (process_book w class_number b acc).
Proof.
  unfold process_book. apply confined_bind; [apply confined_ask|]. intros page.
  apply confined_bind; [by apply confined_emit|]. intros _.
  destruct page as [e| |[href|]]; try apply confined_raise; try apply confined_ret.
  apply confined_bind.
  - eapply confined_mono; [|apply confined_download_and_extract].
    intros p [->| ->]; [apply zip_path_under_downloads | apply pdf_path_under_downloads].
  - intros o. destruct (returned o); [|apply confined_ret].
    destruct (py_int class_number); [apply confined_ret | apply confined_raise].
Qed.

Lemma confined_process_books w class_number books acc :
  confined under_downloads (process_books w class_number books acc).
Proof.
  revert acc. induction books as [|b rest IH]; intros acc; cbn [process_books].
  - apply confined_ret.
  - apply confined_bind; [apply confined_process_book | intros acc'; apply IH].
Qed.

Lemma process_books_snoc w class_number before b acc st :
  process_books w class_number (before ++ [b]) acc st
  = match process_books w class_number before acc st with
    | (Ret acc1, st1) => process_book w class_number b acc1 st1
    | (Raise e, st1) => (Raise e, st1)
    end.
Proof.
  revert acc st. induction before as [|b0 before IH]; intros acc st.
  - cbn [app process_books]. rewrite run_bind, run_ret. cbv beta iota.
    destruct (process_book w class_number b acc st) as [[acc1|e] st1]; reflexivity.
  - cbn [app process_books]. rewrite !run_bind.
    destruct (process_book w class_number b0 acc st) as [[acc1|e] st1]; [apply IH | done].
Qed.

Lemma recorded_only_process_book w class_number before b after st0 acc st acc' :
  process_books w class_number before ([], ∅) st0 = (Ret acc, st) ->
  (process_book w class_number b acc st).1 = Ret acc' ->
  recorded_only w class_number (before ++ b :: after) st0 acc ->
  recorded_only w class_number (before ++ b :: after) st0 acc'.
Proof.
  intros Hbefore. rewrite process_book_run. cbn zeta.
  destruct (detail_page w (length (trace st)) b) as [e| |[href|]] eqn:Hpage; cbn [fst];
    try done; try (by intros [= <-]).
  destruct (download_and_extract _ _ _ _ _ _) as [[[md|why]|e] st1] eqn:E;
    cbn [fst snd]; try done; try (by intros [= <-]).
  destruct (py_int class_number) as [n|] eqn:Hn; [|done]. cbn [fst]. intros [= <-].
  intros [H1 H2].
  assert (recorded_in w class_number (before ++ b :: after) st0
            (book_entry_of b (download_url_of href) n md) (md_sha256 md)) as Hnew.
  { exists before, b, after, acc, st, href, md, n. rewrite E. by repeat split. }
  split; cbn [fst snd].
  - intros e He. apply elem_of_app in He as [He|He]; [by apply H1|].
    apply list_elem_of_singleton in He as ->. by eexists.
  - intros id h. rewrite lookup_insert. case_decide as Hid.
    + intros [= <-]. eexists. split; [|split; [|exact Hnew]].
      * apply elem_of_app. right. by apply list_elem_of_singleton.
      * by subst.
    + intros Hl. destruct (H2 id h Hl) as (e & He & ? & ?).
      exists e. split; [|done]. apply elem_of_app. by left.
Qed.

Lemma recorded_only_loop w class_number st0 rest before acc st acc' st' :
  process_books w class_number before ([], ∅) st0 = (Ret acc, st) ->
  process_books w class_number rest acc st = (Ret acc', st') ->
  recorded_only w class_number (before ++ rest) st0 acc ->
  recorded_only w class_number (before ++ rest) st0 acc'.
Proof.
  revert before acc st. induction rest as [|b rest IH]; intros before acc st Hbefore.
  - cbn [process_books]. by intros [= <- <-].
  - cbn [process_books]. rewrite run_bind.
    destruct (process_book w class_number b acc st) as [[acc1|e] st1] eqn:E; [|done].
    intros Hrest Hacc.
    assert (recorded_only w class_number (before ++ b :: rest) st0 acc1) as Hacc1.
    { eapply recorded_only_process_book; [exact Hbefore | by rewrite E | exact Hacc]. }
    rewrite cons_middle, app_assoc in Hacc1 |- *.
    apply (IH (before ++ [b]) acc1 st1); [|exact Hrest | exact Hacc1].
    by rewrite process_books_snoc, Hbefore.
Qed.

Lemma recorded_only_process_books w class_number books st0 acc st :
  process_books w class_number books ([], ∅) st0 = (Ret acc, st) ->
  recorded_only w class_number books st0 acc.
Proof.
  intros H. apply (recorded_only_loop w class_number st0 books [] ([], ∅) st0 acc st);
    [done | exact H |].
  split; [intros e He; by apply not_elem_of_nil in He|].
  intros id h. cbn [snd]. by rewrite lookup_empty.
Qed.

(** ** Writing the manifests *)

Lemma write_json_run w p value st :
  write_json w p value st
  = match persist w (length (trace st)) p with
    | OpenFails e => (Raise e, st)
    | DumpFails partial e =>
        (Raise e, {| fs := <[p := Binary partial]> (fs st);
                     trace := trace st ++ [EvOpenW p; EvWrite p] |})
    | Written =>
        (Ret tt, {| fs := <[p := value]> (fs st);
                    trace := trace st ++ [EvOpenW p; EvWrite p] |})
    end.
Proof.
  unfold write_json. run.
  destruct (persist w (length (trace st)) p) as [e|partial e|]; run.
  - done.
  - by rewrite alter_insert_eq, <- app_assoc.
  - by rewrite insert_insert_eq, <- app_assoc.
Qed.

Lemma manifest_paths_differ : books_json <> hashes_json.
Proof. by vm_compute. Qed.

(** The three ways a flush can end: both files written; nothing touched,
    because the first file could not be opened; or broken off after the
    first file was opened. *)
Lemma write_manifests_cases w books hashes st :
  let r := write_manifests w books hashes st in
  r = (Ret tt,
       {| fs := <[hashes_json := HashesJson hashes]>
                  (<[books_json := BooksJson books]> (fs st));
          trace := trace st ++ flush_events |})
  \/ (exists e, r = (Raise e, st))
  \/ (exists e flushed,
        r.1 = Raise e
        /\ flushed <> [] /\ flushed `prefix_of` flush_events
        /\ trace r.2 = trace st ++ flushed
        /\ (fs r.2 !! books_json = Some (BooksJson books)
            \/ exists partial, fs r.2 !! books_json = Some (Binary partial))
        /\ forall p, p <> books_json -> p <> hashes_json -> fs r.2 !! p = fs st !! p).
Proof.
  intros r. subst r. unfold write_manifests. rewrite run_bind, write_json_run.
  destruct (persist w (length (trace st)) books_json) as [e|partial e|].
  - right. left. by exists e.
  - right. right. exists e, [EvOpenW books_json; EvWrite books_json]. cbn [fst snd fs trace].
    split; [done|]. split; [done|]. split; [by eexists|]. split; [done|].
    split; [right; exists partial; apply lookup_insert_eq|].
    intros p Hp _. by apply lookup_insert_ne.
  - rewrite write_json_run. cbn [fs trace].
    destruct (persist w _ hashes_json) as [e|partial e|].
    + right. right. exists e, [EvOpenW books_json; EvWrite books_json]. cbn [fst snd fs trace].
      split; [done|]. split; [done|]. split; [by eexists|]. split; [done|].
      split; [left; apply lookup_insert_eq|].
      intros p Hp _. by apply lookup_insert_ne.
    + right. right. exists e, flush_events. cbn [fst snd fs trace].
      split; [done|]. split; [done|]. split; [done|].
      split; [by rewrite <- app_assoc|]. split.
      * left. rewrite lookup_insert_ne by (apply not_eq_sym, manifest_paths_differ).
        apply lookup_insert_eq.
      * intros p Hp Hp'. by rewrite !lookup_insert_ne.
    + left. by rewrite <- app_assoc.
Qed.

Lemma write_manifests_returns w books hashes st :
  (write_manifests w books hashes st).1 = Ret tt ->
  write_manifests w books hashes st
  = (Ret tt,
     {| fs := <[hashes_json := HashesJson hashes]>
                (<[books_json := BooksJson books]> (fs st));
        trace := trace st ++ flush_events |}).
Proof.
  destruct (write_manifests_cases w books hashes st) as [H|[[e H]|(e & ? & H & _)]];
    rewrite ?H; done.
Qed.

(** ** The sanitizer, the identifier and the retrieval *)

(** C3: for every input string the sanitizer is idempotent,
    [sanitize(sanitize(x)) = sanitize(x)], and its output holds only
    characters of [a-z0-9_.-]. *)
Theorem sanitize_filename_idempotent (x : str) :
  sanitize_filename (sanitize_filename x) = sanitize_filename x
  /\ Forall (fun c => safe_char c = true) (sanitize_filename x).
Proof.
  split; [|apply sanitize_filename_safe].
  apply sanitize_filename_fixed, sanitize_filename_safe.
Qed.

(** C4: the identifier returned for an entry is a function of (class, subject,
    title) alone: two successful calls for the same triple, in whatever
    world, on whatever disk and from whatever URL, return the same id, and
    that id is "c" + class + "_" + sanitized subject + "_" + sanitized title;
    for class "X", subject "S", title "T" it is "cX_s_t". *)
Theorem book_id_deterministic w1 w2 url1 url2 class_num subject title st1 st2 md1 md2 :
  (download_and_extract w1 url1 class_num subject title st1).1 = Ret (Saved md1) ->
  (download_and_extract w2 url2 class_num subject title st2).1 = Ret (Saved md2) ->
  md_id md1 = md_id md2
  /\ md_id md1 = py "c" ++ class_num ++ py "_" ++ sanitize_filename subject
                   ++ py "_" ++ sanitize_filename title
  /\ (class_num = py "X" -> subject = py "S" -> title = py "T" ->
      md_id md1 = py "cX_s_t").
Proof.
  intros H1 H2.
  apply download_and_extract_saved in H1 as (c1 & -> & _).
  apply download_and_extract_saved in H2 as (c2 & -> & _).
  cbn [md_id]. repeat split. by intros -> -> ->.
Qed.

Lemma book_id_deterministic_witness :
  let md := {| md_id := py "cX_s_t";
               md_pdf_path := py "downloads/class_X/s_t.pdf";
               md_sha256 := Samples.toy_digest Samples.book_pdf |} in
  (download_and_extract Samples.good_world Samples.url (py "X") (py "S") (py "T")
     Samples.empty).1 = Ret (Saved md)
  /\ (download_and_extract Samples.good_world (py "elsewhere") (py "X") (py "S") (py "T")
     Samples.used).1 = Ret (Saved md)
  /\ md_id md = py "cX_s_t".
Proof.
  intros md.
  assert ((download_and_extract Samples.good_world Samples.url (py "X") (py "S") (py "T")
             Samples.empty).1 = Ret (Saved md)) as H1 by (vm_compute; reflexivity).
  assert ((download_and_extract Samples.good_world (py "elsewhere") (py "X") (py "S") (py "T")
             Samples.used).1 = Ret (Saved md)) as H2 by (vm_compute; reflexivity).
  split; [exact H1|]. split; [exact H2|].
  apply (book_id_deterministic _ _ _ _ _ _ _ _ _ _ _ H1 H2); reflexivity.
Defined.

(** C6: when the fetch fails with an exception of [requests], before or
    partway through streaming, the call ends on the "failed to download"
    path, no temporary archive is on disk afterwards and the file at the
    entry's destination path is as it was; and on every exit path of
    [download_and_extract], whatever the outcome, the temporary archive is
    gone. *)
Theorem fetch_failure_cleans_up w url class_num subject title st :
  let r := download_and_extract w url class_num subject title st in
  fs r.2 !! zip_path class_num = None
  /\ forall e,
       fetch_error w url st = Some e -> is_RequestException e = true ->
       r.1 = Ret (Skipped DownloadFailed)
       /\ fs r.2 !! pdf_path class_num subject title
          = fs st !! pdf_path class_num subject title.
Proof.
  intros r. split; [apply download_and_extract_zip_removed|].
  intros e He Hr.
  destruct (download_and_extract_fetch_fails w url class_num subject title st e He Hr)
    as [Ho [_ K]].
  split; [exact Ho|]. apply K, pdf_path_not_zip_path.
Qed.

Lemma fetch_failure_cleans_up_witness :
  let r := download_and_extract Samples.broken_world Samples.url
             (py "1") (py "S") (py "T") Samples.used in
  fetch_error Samples.broken_world Samples.url Samples.used = Some ChunkedEncodingError
  /\ fs Samples.used !! zip_path (py "1") = Some (Binary [x00])
  /\ fs r.2 !! zip_path (py "1") = None
  /\ r.1 = Ret (Skipped DownloadFailed)
  /\ fs r.2 !! pdf_path (py "1") (py "S") (py "T") = Some (Binary Samples.old_pdf).
Proof.
  intros r.
  destruct (fetch_failure_cleans_up Samples.broken_world Samples.url
              (py "1") (py "S") (py "T") Samples.used) as [Hz Hf].
  specialize (Hf ChunkedEncodingError eq_refl eq_refl) as [Ho Hp].
  split; [reflexivity|]. split; [vm_compute; reflexivity|].
  split; [exact Hz|]. split; [exact Ho|].
  unfold r. rewrite Hp. vm_compute. reflexivity.
Defined.

(** C7: when the archive was fetched and opened and none of its member names
    ends in ".pdf", the call returns [None] on the "no PDF found" path
    without raising, the file at the destination path is as it was, and no
    effect of the call opens or writes that path. *)
Theorem no_pdf_is_skipped w url class_num subject title st chunks z :
  http_get w (length (trace st)) url = Body chunks None ->
  zip_open w (concat chunks) = inr z ->
  pdf_files z = [] ->
  let r := download_and_extract w url class_num subject title st in
  let target := pdf_path class_num subject title in
  r.1 = Ret (Skipped NoPdfFound)
  /\ returned (Skipped NoPdfFound) = None
  /\ fs r.2 !! target = fs st !! target
  /\ exists evs, trace r.2 = trace st ++ evs
       /\ Forall (fun e => event_path e <> Some target) evs.
Proof.
  intros Hg Hz Hp r target.
  destruct (download_and_extract_no_pdf w url class_num subject title st chunks z Hg Hz Hp)
    as [Ho [(evs & T & F) K]].
  split; [exact Ho|]. split; [reflexivity|].
  split; [apply K, pdf_path_not_zip_path|].
  exists evs. split; [exact T|].
  eapply Forall_impl; [exact F|]. intros e [_ He] Hpath.
  apply He in Hpath. by apply pdf_path_not_zip_path in Hpath.
Qed.

Lemma no_pdf_is_skipped_witness :
  let r := download_and_extract Samples.no_pdf_world Samples.url
             (py "1") (py "S") (py "T") Samples.used in
  pdf_files Samples.no_pdf_zip = []
  /\ r.1 = Ret (Skipped NoPdfFound)
  /\ fs r.2 !! pdf_path (py "1") (py "S") (py "T") = Some (Binary Samples.old_pdf).
Proof.
  intros r.
  destruct (no_pdf_is_skipped Samples.no_pdf_world Samples.url (py "1") (py "S") (py "T")
              Samples.used Samples.archive_bytes Samples.no_pdf_zip
              eq_refl eq_refl eq_refl) as (Ho & _ & Hp & _).
  split; [reflexivity|]. split; [exact Ho|].
  unfold r. rewrite Hp. vm_compute. reflexivity.
Defined.

(** C5, as the code runs: the destination is opened for writing, and so
    created or emptied, before the bytes of the chosen member are read.
    Here the member fails its CRC-32 check when read: the call returns
    [None] on the "corrupt zip" path and the output file that was on disk is
    left empty. *)
Theorem read_failure_empties_output :
  let target := pdf_path (py "1") (py "S") (py "T") in
  let r := download_and_extract Samples.bad_crc_world Samples.url
             (py "1") (py "S") (py "T") Samples.used in
  fs Samples.used !! target = Some (Binary Samples.old_pdf)
  /\ r.1 = Ret (Skipped CorruptZip)
  /\ fs r.2 !! target = Some (Binary [])
  /\ trace r.2 = [EvGet Samples.url;
                  EvOpenW (zip_path (py "1"));
                  EvWrite (zip_path (py "1"));
                  EvWrite (zip_path (py "1"));
                  EvOpenW target;
                  EvReadMember (py "book.pdf");
                  EvRemove (zip_path (py "1"))].
Proof. vm_compute. repeat split. Qed.

(** ** [max] with a key *)

Lemma max_from_spec {A} (key : A -> N) (best : A) (l : list A) :
  exists i,
    (best :: l) !! i = Some (max_from key best l)
    /\ forall j x, (best :: l) !! j = Some x ->
         key x <= key (max_from key best l)
         /\ ((j < i)%nat -> key x < key (max_from key best l)).
Proof.
  revert best. induction l as [|y l IH]; intros best; cbn [max_from].
  - exists 0%nat. split; [done|]. intros [|j] x; [|done].
    intros [= <-]. split; [lia | intros; lia].
  - destruct (N.ltb_spec (key best) (key y)) as [Hlt|Hge].
    + destruct (IH y) as (i & Hi & Hall). exists (S i). split; [done|].
      intros [|j] x Hx.
      * injection Hx as <-. destruct (Hall 0%nat y eq_refl) as [Hy _].
        split; [lia | intros; lia].
      * destruct (Hall j x Hx) as [H1 H2]. split; [done | intros; apply H2; lia].
    + destruct (IH best) as (i & Hi & Hall).
      destruct (Hall 0%nat best eq_refl) as [Hb Hb'].
      destruct i as [|i].
      * injection Hi as Hi. exists 0%nat. split; [by rewrite <- Hi|].
        intros [|[|j]] x Hx.
        -- injection Hx as <-. split; [lia | intros; lia].
        -- injection Hx as <-. rewrite <- Hi. split; [lia | intros; lia].
        -- destruct (Hall (S j) x Hx) as [H1 _]. split; [done | intros; lia].
      * exists (S (S i)). split; [done|].
        intros [|[|j]] x Hx.
        -- injection Hx as <-. split; [done | intros; apply Hb'; lia].
        -- injection Hx as <-. assert (key best < key (max_from key best l)) by (apply Hb'; lia).
           split; [lia | intros; lia].
        -- destruct (Hall (S j) x Hx) as [H1 H2]. split; [done | intros; apply H2; lia].
Qed.

Lemma py_max_spec {A} (key : A -> N) (l : list A) :
  l <> [] ->
  exists m i,
    py_max key l = Some m
    /\ l !! i = Some m
    /\ (forall x, x ∈ l -> key x <= key m)
    /\ (forall j x, l !! j = Some x -> (j < i)%nat -> key x < key m).
Proof.
  destruct l as [|best l]; [done|]. intros _. cbn [py_max].
  destruct (max_from_spec key best l) as (i & Hi & Hall).
  exists (max_from key best l), i. split; [done|]. split; [done|]. split.
  - intros x Hx. apply list_elem_of_lookup in Hx as [j Hj]. by apply (Hall j x).
  - intros j x Hj Hlt. by apply (Hall j x).
Qed.

(** ** The entries of an archive and their names *)

Lemma NameToInfo_snoc (l : list ZipInfo) (x : ZipInfo) :
  NameToInfo {| filelist := l ++ [x] |}
  = <[zi_filename x := x]> (NameToInfo {| filelist := l |}).
Proof. unfold NameToInfo. cbn [filelist]. by rewrite foldl_app. Qed.

Lemma getinfo_sound (z : ZipFile) (name : str) (info : ZipInfo) :
  getinfo z name = Some info -> info ∈ filelist z /\ zi_filename info = name.
Proof.
  destruct z as [l]. unfold getinfo. cbn [filelist].
  induction l as [|x l IH] using rev_ind.
  { unfold NameToInfo. cbn [filelist foldl]. by rewrite lookup_empty. }
  rewrite NameToInfo_snoc, lookup_insert. case_decide as E.
  - intros [= <-]. split; [|done]. apply elem_of_app. right. by apply list_elem_of_singleton.
  - intros H. destruct (IH H) as [? ?]. split; [|done]. apply elem_of_app. by left.
Qed.

Lemma getinfo_namelist (z : ZipFile) (name : str) :
  name ∈ namelist z -> is_Some (getinfo z name).
Proof.
  destruct z as [l]. unfold getinfo, namelist. cbn [filelist].
  induction l as [|x l IH] using rev_ind.
  { cbn [fmap list_fmap]. by intros H%not_elem_of_nil. }
  rewrite NameToInfo_snoc, fmap_app, lookup_insert. case_decide as E; [by eexists|].
  intros H. apply elem_of_app in H as [H|H]; [by apply IH|].
  apply list_elem_of_singleton in H. by subst.
Qed.

(** With pairwise distinct names, [getinfo] gives back every entry for its
    own name. *)
Lemma getinfo_entry (z : ZipFile) (info : ZipInfo) :
  NoDup (namelist z) -> info ∈ filelist z -> getinfo z (zi_filename info) = Some info.
Proof.
  destruct z as [l]. unfold getinfo, namelist. cbn [filelist].
  induction l as [|x l IH] using rev_ind; [by intros _ H%not_elem_of_nil|].
  rewrite NameToInfo_snoc, fmap_app. intros Hnd Hin.
  apply NoDup_app in Hnd as (Hnd & Hfresh & _).
  apply elem_of_app in Hin as [Hin|Hin].
  - rewrite lookup_insert_ne; [by apply IH|].
    intros E. apply (Hfresh (zi_filename info)).
    + by apply list_elem_of_fmap_2.
    + rewrite <- E. by apply list_elem_of_singleton.
  - apply list_elem_of_singleton in Hin as ->. apply lookup_insert_eq.
Qed.

Lemma pdf_files_entries (z : ZipFile) : pdf_files z = zi_filename <$> pdf_entries z.
Proof.
  unfold pdf_files, pdf_entries, namelist.
  induction (filelist z) as [|x l IH]; [done|].
  cbn [fmap list_fmap List.filter]. fold (zi_filename <$> l). rewrite IH.
  by destruct (is_pdf (zi_filename x)).
Qed.

Lemma pdf_entries_spec (z : ZipFile) (x : ZipInfo) :
  x ∈ pdf_entries z <-> x ∈ filelist z /\ is_pdf (zi_filename x) = true.
Proof. unfold pdf_entries. rewrite !list_elem_of_In. apply filter_In. Qed.




(** ** The archive reference *)

Lemma extends_trace_cons P st st0 st' e :
  trace st0 = trace st ++ [e] -> extends P st0 st' ->
  exists evs, trace st' = trace st ++ e :: evs.
Proof.
  intros E [(evs & T & _) _]. exists evs. by rewrite T, E, <- app_assoc.
Qed.

Lemma download_and_extract_trace w url class_num subject title st :
  exists evs,
    trace (download_and_extract w url class_num subject title st).2
    = trace st ++ EvGet url :: evs.
Proof.
  set (P := fun p => p = zip_path class_num \/ p = pdf_path class_num subject title).
  apply (extends_trace_cons P st {| fs := fs st; trace := trace st ++ [EvGet url] |});
    [done|].
  rewrite download_and_extract_run. cbn [snd].
  eapply extends_trans; [|apply confined_remove_if_exists; by left].
  rewrite run_bind. unfold fetch at 1. run.
  assert (forall (k : M unit), confined P k ->
            extends P {| fs := fs st; trace := trace st ++ [EvGet url] |}
              (match k {| fs := fs st; trace := trace st ++ [EvGet url] |} with
               | (Ret a, st') => extract w class_num subject title st'
               | (Raise e, st') => (Raise e, st')
               end).2) as Hk.
  { intros k Hk. specialize (Hk {| fs := fs st; trace := trace st ++ [EvGet url] |}).
    destruct (k _) as [[[]|e] st1]; cbn [snd] in *; [|done].
    eapply extends_trans; [exact Hk|].
    eapply confined_mono; [|apply confined_extract]. intros p ->. by right. }
  apply Hk.
  destruct (http_get w (length (trace st)) url) as [e| |chunks broken];
    try apply confined_raise.
  apply confined_bind; [apply confined_open_w; by left|]. intros _.
  apply confined_bind.
  - apply confined_for_each. intros x. apply confined_write_bytes. by left.
  - intros _. destruct broken; [apply confined_raise | apply confined_ret].
Qed.

(** C8, the claim as stated fails on an absolute reference: the prefix is put
    in front of it all the same. *)
Lemma absolute_href_is_prefixed_too :
  let h := py "https://ncert.nic.in/textbook/pdf/aemh1dd.zip" in
  is_absolute_reference h = true
  /\ download_url_of h <> normalized_reference h
  /\ download_url_of h
     = py "https://ncert.nic.in/https://ncert.nic.in/textbook/pdf/aemh1dd.zip"
  /\ forall w class_number b acc st,
       detail_page w (length (trace st)) b = Anchor (Some h) ->
       exists evs,
         trace (process_book w class_number b acc st).2
         = trace st ++ [EvNavigate b; EvGet (download_url_of h)] ++ evs.
Proof.
  intros h. split; [reflexivity|]. split; [by vm_compute|]. split; [reflexivity|].
  intros w class_number b acc st Hpage. rewrite process_book_run, Hpage. cbn zeta.
  destruct (download_and_extract_trace w (download_url_of h) class_number
              (subject b) (title b)
              {| fs := fs st; trace := trace st ++ [EvNavigate b] |}) as [evs T].
  exists evs. cbn [trace] in T. rewrite <- app_assoc in T. cbn [app] in *.
  destruct (download_and_extract _ _ _ _ _ _) as [[[md|why]|e] st1]; cbn [fst snd] in *;
    try done.
  by destruct (py_int class_number).
Qed.

(** C8, amended: for every [href] found on the anchor, the archive reference
    that is fetched, and recorded in the manifest entry when the book is
    saved, is "https://ncert.nic.in/" followed by the [href] as it is; that
    is the reference resolved against the site's origin when the [href] is
    neither absolute nor starts with a slash. *)
Theorem download_url_prefixes_href w class_number b acc st href :
  detail_page w (length (trace st)) b = Anchor (Some href) ->
  let r := process_book w class_number b acc st in
  let url := py "https://ncert.nic.in/" ++ href in
  (exists evs, trace r.2 = trace st ++ [EvNavigate b; EvGet url] ++ evs)
  /\ (forall acc', r.1 = Ret acc' ->
        acc' = acc
        \/ exists e, acc'.1 = acc.1 ++ [e] /\ be_download_url e = url)
  /\ (is_absolute_reference href = false -> startswith href (py "/") = false ->
      url = normalized_reference href).
Proof.
  intros Hpage r url. subst r. rewrite process_book_run, Hpage. cbn zeta.
  change (download_url_of href) with url.
  destruct (download_and_extract_trace w url class_number (subject b) (title b)
              {| fs := fs st; trace := trace st ++ [EvNavigate b] |}) as [evs T].
  cbn [trace] in T. rewrite <- app_assoc in T. cbn [app] in *.
  split; [|split].
  - exists evs.
    destruct (download_and_extract _ _ _ _ _ _) as [[[md|why]|e] st1]; cbn [fst snd] in *;
      try done.
    by destruct (py_int class_number).
  - intros acc'.
    destruct (download_and_extract _ _ _ _ _ _) as [[[md|why]|e] st1]; cbn [fst snd];
      try done; [|intros [= <-]; by left].
    destruct (py_int class_number) as [n|]; [|done]. cbn [fst]. intros [= <-].
    right. eexists. split; reflexivity.
  - intros Ha Hs. unfold normalized_reference. by rewrite Ha, Hs.
Qed.

Lemma download_url_prefixes_href_witness :
  let b := {| subject := py "S"; title := py "T" |} in
  let r := process_book Samples.good_world (py "1") b ([], ∅) Samples.empty in
  is_absolute_reference Samples.href = false
  /\ (exists evs, trace r.2
        = [EvNavigate b; EvGet (py "https://ncert.nic.in/textbook/pdf/book.zip")] ++ evs)
  /\ py "https://ncert.nic.in/textbook/pdf/book.zip" = normalized_reference Samples.href.
Proof.
  intros b r.
  destruct (download_url_prefixes_href Samples.good_world (py "1") b ([], ∅)
              Samples.empty Samples.href eq_refl) as (Ht & _ & Hn).
  split; [reflexivity|]. split; [exact Ht|]. apply Hn; reflexivity.
Defined.

(** ** The run *)

Lemma gather_run w class_name st :
  (exists e, gather w class_name st = (Raise e, st))
  \/ (exists books, gather w class_name st = (Ret books, st)).
Proof.
  unfold gather. destruct (subject_options w class_name) as [e|subjects]; [left; by eexists|].
  destruct (gather_titles w class_name subjects []) as [e|books];
    [left | right]; by eexists.
Qed.

Lemma quiet_not_manifest (e : event) :
  quiet under_downloads e ->
  event_path e <> Some books_json /\ event_path e <> Some hashes_json.
Proof.
  intros [_ H]. split; intros E; apply H in E.
  - by apply books_json_not_under_downloads.
  - by apply hashes_json_not_under_downloads.
Qed.



Lemma download_and_extract_returns w url class_num subject title st chunks z name content :
  http_get w (length (trace st)) url = Body chunks None ->
  zip_open w (concat chunks) = inr z ->
  main_pdf_name z = Some name ->
  member z name = ReadOk content ->
  let r := download_and_extract w url class_num subject title st in
  r.1 = Ret (Saved {| md_id := book_id class_num subject title;
                      md_pdf_path := pdf_path class_num subject title;
                      md_sha256 := sha256_hexdigest w content |})
  /\ fs r.2 !! pdf_path class_num subject title = Some (Binary content).
Proof.
  intros Hg Hz Hn Hm r. unfold r.
  rewrite download_and_extract_run. cbn [fst snd]. rewrite run_bind.
  destruct (fetch_ok_fs w url (zip_path class_num) st chunks Hg) as (st1 & E & Hzip).
  rewrite E. rewrite (extract_run _ _ _ _ _ _ Hzip), Hz, Hn, Hm.
  cbn [fst snd handled]. split; [done|].
  match goal with |- fs (remove_if_exists ?p ?s).2 !! _ = _ =>
    destruct (confined_remove_if_exists (fun q => q = p) p eq_refl s) as [_ K] end.
  rewrite K; [apply lookup_insert_eq | apply pdf_path_not_zip_path].
Qed.

(** A book whose detail view gives an [href], whose archive arrives whole
    and opens, and whose chosen member can be read, is recorded with the
    hash of that member, and the member's bytes are at its path. *)
Lemma process_book_saves w class_number b acc st n href chunks z name content :
  py_int class_number = Some n ->
  detail_page w (length (trace st)) b = Anchor (Some href) ->
  http_get w (S (length (trace st))) (download_url_of href) = Body chunks None ->
  zip_open w (concat chunks) = inr z ->
  main_pdf_name z = Some name ->
  member z name = ReadOk content ->
  let r := process_book w class_number b acc st in
  let md := {| md_id := book_id class_number (subject b) (title b);
               md_pdf_path := pdf_path class_number (subject b) (title b);
               md_sha256 := sha256_hexdigest w content |} in
  r.1 = Ret (acc.1 ++ [book_entry_of b (download_url_of href) n md],
             <[md_id md := md_sha256 md]> acc.2)
  /\ fs r.2 !! pdf_path class_number (subject b) (title b) = Some (Binary content).
Proof.
  intros Hn Hpage Hg Hz Hname Hm r md. unfold r.
  rewrite process_book_run, Hpage. cbn zeta.
  destruct (download_and_extract_returns w (download_url_of href) class_number
              (subject b) (title b)
              {| fs := fs st; trace := trace st ++ [EvNavigate b] |}
              chunks z name content) as [Hr Hfs]; try done.
  { cbn [trace]. by rewrite length_app, Nat.add_1_r. }
  destruct (download_and_extract _ _ _ _ _ _) as [r' st']. cbn [fst snd] in *.
  subst r'. by rewrite Hn.
Qed.



(** C1, as the code runs: an exception raised while the browser is driven to
    one entry is caught nowhere.  Of two books, the first times out on its
    detail view: the run ends with that exception, the second book, which
    would have been saved, is never visited, and no manifest is written. *)
Theorem navigation_timeout_aborts_run :
  let r := main Stuck.world (py "1") Samples.empty in
  gather Stuck.world (py "Class I") Samples.empty
    = (Ret [Stuck.first; Stuck.second], Samples.empty)
  /\ r.1 = Raise TimeoutException
  /\ trace r.2 = [EvNavigate Stuck.first; EvQuit]
  /\ fs r.2 !! books_json = None
  /\ fs r.2 !! hashes_json = None
  /\ (process_book Stuck.world (py "1") Stuck.second ([], ∅) Samples.empty).1
     = Ret ([Stuck.saved_second],
            {[ py "c1_s_t2" := Samples.toy_digest Samples.book_pdf ]}).
Proof. vm_compute. repeat split. Qed.

(** ** Further properties of the sanitizer *)

Lemma sanitize_char_lower (c : N) :
  lower_char (if in_class (lower_char c) then lower_char c else 95)
  = lower_char (if in_class c then c else 95).
Proof.
  destruct (lower_char_spec c) as [[Hc ->]|[_ ->]]; [|done].
  assert (in_class c = true) as -> by (apply in_class_spec; lia).
  assert (in_class (c + 32) = true) as -> by (apply in_class_spec; lia).
  destruct (lower_char_spec (c + 32)) as [[? ->]|[? ->]]; [lia|].
  destruct (lower_char_spec c) as [[? ->]|[? ->]]; [done | lia].
Qed.

(** X1: the strings the sanitizer leaves as they are, are exactly the strings
    over [a-z0-9_.-]. *)
Theorem sanitize_filename_fixed_iff (y : str) :
  sanitize_filename y = y <-> Forall (fun c => safe_char c = true) y.
Proof.
  split; [|apply sanitize_filename_fixed].
  intros H. rewrite <- H. apply sanitize_filename_safe.
Qed.

(** X2: the sanitizer works code point by code point and does not tell the
    case of ASCII letters apart: the output is as long as the input, the
    output of a concatenation is the concatenation of the outputs, and
    lowering the input first changes nothing. *)
Theorem sanitize_filename_pointwise (x y : str) :
  length (sanitize_filename x) = length x
  /\ sanitize_filename (x ++ y) = sanitize_filename x ++ sanitize_filename y
  /\ sanitize_filename (lower x) = sanitize_filename x.
Proof.
  split; [apply sanitize_filename_length|]. split.
  - unfold sanitize_filename, lower, re_sub. by rewrite !fmap_app.
  - induction x as [|c x IH]; [done|].
    change (lower (c :: x)) with (lower_char c :: lower x).
    by rewrite !sanitize_filename_cons, IH, sanitize_char_lower.
Qed.

(** ** Further properties of the paths *)

Lemma startswith_spec (s p : str) :
  startswith s p = true <-> exists rest, s = p ++ rest.
Proof.
  revert s. induction p as [|c p IH]; intros s; cbn [startswith].
  - split; [intros _; by exists s | done].
  - destruct s as [|d s].
    + split; [done | intros [rest H]; discriminate].
    + rewrite andb_true_iff, N.eqb_eq, IH. split.
      * intros [-> [rest ->]]. by exists rest.
      * intros [rest [= -> ->]]. split; [done | by exists rest].
Qed.

Lemma endswith_spec (s p : str) :
  endswith s p = true <-> exists stem, s = stem ++ p.
Proof.
  unfold endswith. rewrite startswith_spec. split.
  - intros [rest H]. exists (rev rest).
    apply (f_equal (@rev N)) in H. by rewrite rev_involutive, rev_app_distr, rev_involutive in H.
  - intros [stem ->]. exists (rev stem). apply rev_app_distr.
Qed.

Lemma join_prefix_ends_in_slash (a : str) :
  a <> [] -> endswith (join_prefix a) (py "/") = true.
Proof.
  intros Ha. unfold join_prefix.
  destruct (bool_decide (a = [])) eqn:E; [by apply bool_decide_eq_true in E|].
  cbn [orb]. destruct (endswith a (py "/")) eqn:E'; [done|].
  apply endswith_spec. by exists a.
Qed.

Lemma pdf_filename_no_slash (subject title : str) :
  Forall (fun c => c <> 47) (pdf_filename subject title).
Proof.
  assert (forall x, Forall (fun c => c <> 47) (sanitize_filename x)) as Hs.
  { intros x. eapply Forall_impl; [apply sanitize_filename_safe|].
    intros c Hc. apply safe_char_spec in Hc. lia. }
  unfold pdf_filename. repeat apply Forall_app_2; try apply Hs.
  - by repeat constructor.
  - by repeat constructor.
Qed.

(** X3: whatever the subject and the title, the output file lies directly in
    the directory of the class: its path is that directory, ending in a
    slash, followed by a file name without a slash, and the temporary
    archive lies in the same directory; the output path is neither the
    temporary archive nor one of the two manifest files. *)
Theorem pdf_path_in_class_directory (class_num subject title : str) :
  exists dir,
    pdf_path class_num subject title = dir ++ pdf_filename subject title
    /\ zip_path class_num = dir ++ py "temp.zip"
    /\ startswith dir (py "downloads/class_" ++ class_num) = true
    /\ endswith dir (py "/") = true
    /\ Forall (fun c => c <> 47) (pdf_filename subject title)
    /\ pdf_path class_num subject title <> zip_path class_num
    /\ pdf_path class_num subject title <> books_json
    /\ pdf_path class_num subject title <> hashes_json.
Proof.
  exists (join_prefix (output_dir class_num)).
  split; [apply pdf_path_eq|]. split; [apply zip_path_eq|].
  split; [|split; [|split; [|split; [|split]]]].
  - rewrite output_dir_eq. apply startswith_spec. unfold join_prefix.
    destruct (_ || _); eexists; [symmetry; apply app_nil_r | reflexivity].
  - apply join_prefix_ends_in_slash. by rewrite output_dir_eq.
  - apply pdf_filename_no_slash.
  - apply pdf_path_not_zip_path.
  - intros E. apply books_json_not_under_downloads. rewrite <- E.
    apply pdf_path_under_downloads.
  - intros E. apply hashes_json_not_under_downloads. rewrite <- E.
    apply pdf_path_under_downloads.
Qed.

(** X4: a member name counts as a PDF exactly when it ends in four code
    points that are ".pdf" once ASCII letters are lowered, so in any mix of
    cases, and whatever comes before them. *)
Theorem is_pdf_spec (f : str) :
  is_pdf f = true <-> exists stem ext, f = stem ++ ext /\ lower ext = py ".pdf".
Proof.
  unfold is_pdf. rewrite endswith_spec. unfold lower. split.
  - intros [pre H]. apply fmap_app_inv in H as (stem & ext & _ & He & ->).
    by exists stem, ext.
  - intros (stem & ext & -> & He). exists (lower_char <$> stem).
    by rewrite fmap_app, He.
Qed.

(** ** Further properties of [download_and_extract] *)

Lemma download_and_extract_outcome w url class_num subject title st :
  (download_and_extract w url class_num subject title st).1
  = outcome_of w url class_num subject title (length (trace st)).
Proof.
  rewrite download_and_extract_run. cbn [fst snd]. rewrite run_bind.
  unfold outcome_of.
  pose proof (fetch_result w url (zip_path class_num) st) as Hf.
  unfold fetch_error in Hf.
  destruct (http_get w (length (trace st)) url) as [e| |chunks [e|]] eqn:Hg.
  1-3: destruct (fetch w url (zip_path class_num) st) as [r st1];
       cbn [fst] in Hf; by subst r.
  clear Hf.
  destruct (fetch_ok_fs w url (zip_path class_num) st chunks Hg) as (st1 & -> & Hzip).
  rewrite (extract_run _ _ _ _ _ _ Hzip).
  destruct (zip_open w (concat chunks)) as [e|z]; [done|].
  destruct (main_pdf_name z) as [name|]; [|done].
  by destruct (member z name).
Qed.



(** X6: when the body arrives whole, the bytes fetched open as an archive
    and the chosen member can be read, the call returns the identifier and
    the path of the entry with the hash of the member's bytes; afterwards
    the file at that path holds exactly those bytes, whatever it held
    before, and the temporary archive is gone. *)
Theorem download_and_extract_saves w url class_num subject title st chunks z name content :
  http_get w (length (trace st)) url = Body chunks None ->
  zip_open w (concat chunks) = inr z ->
  main_pdf_name z = Some name ->
  member z name = ReadOk content ->
  let r := download_and_extract w url class_num subject title st in
  r.1 = Ret (Saved {| md_id := book_id class_num subject title;
                      md_pdf_path := pdf_path class_num subject title;
                      md_sha256 := sha256_hexdigest w content |})
  /\ fs r.2 !! pdf_path class_num subject title = Some (Binary content)
  /\ fs r.2 !! zip_path class_num = None.
Proof.
  intros Hg Hz Hn Hm r.
  assert (r.1 = Ret (Saved {| md_id := book_id class_num subject title;
                              md_pdf_path := pdf_path class_num subject title;
                              md_sha256 := sha256_hexdigest w content |})) as Hr.
  { unfold r. rewrite download_and_extract_outcome. unfold outcome_of.
    by rewrite Hg, Hz, Hn, Hm. }
  split; [exact Hr|]. split; [|apply download_and_extract_zip_removed].
  destruct (download_and_extract_saved _ _ _ _ _ _ _ Hr) as (content' & _ & Hfs).
  unfold r. rewrite download_and_extract_run in Hfs |- *. cbn [fst snd] in *.
  rewrite run_bind in Hfs |- *.
  destruct (fetch_ok_fs w url (zip_path class_num) st chunks Hg) as (st1 & E & Hzip).
  rewrite E in *. rewrite (extract_run _ _ _ _ _ _ Hzip), Hz, Hn, Hm in *.
  cbn [fst snd] in *.
  match goal with |- fs (remove_if_exists ?p ?s).2 !! _ = _ =>
    destruct (confined_remove_if_exists (fun q => q = p) p eq_refl s) as [_ K] end.
  rewrite K; [apply lookup_insert_eq | apply pdf_path_not_zip_path].
Qed.

Lemma download_and_extract_saves_witness :
  let r := download_and_extract Samples.good_world Samples.url
             (py "1") (py "S") (py "T") Samples.used in
  main_pdf_name Samples.good_zip = Some (py "book.pdf")
  /\ fs Samples.used !! pdf_path (py "1") (py "S") (py "T")
     = Some (Binary Samples.old_pdf)
  /\ fs r.2 !! pdf_path (py "1") (py "S") (py "T") = Some (Binary Samples.book_pdf)
  /\ fs r.2 !! zip_path (py "1") = None.
Proof.
  intros r.
  destruct (download_and_extract_saves Samples.good_world Samples.url
              (py "1") (py "S") (py "T") Samples.used Samples.archive_bytes
              Samples.good_zip (py "book.pdf") Samples.book_pdf
              eq_refl eq_refl eq_refl eq_refl) as (_ & Hp & Hz).
  split; [reflexivity|]. split; [vm_compute; reflexivity|]. split; [exact Hp | exact Hz].
Defined.

(** X7: a call touches two paths only, the temporary archive and the output
    path of its entry: every other file is as before, and every file the
    call opens, writes or removes is one of the two. *)
Theorem download_and_extract_frame w url class_num subject title st :
  let r := download_and_extract w url class_num subject title st in
  (forall p, p <> zip_path class_num -> p <> pdf_path class_num subject title ->
     fs r.2 !! p = fs st !! p)
  /\ exists evs,
       trace r.2 = trace st ++ evs
       /\ Forall (fun e => forall p, event_path e = Some p ->
                    p = zip_path class_num \/ p = pdf_path class_num subject title) evs.
Proof.
  intros r.
  destruct (confined_download_and_extract w url class_num subject title st)
    as [(evs & T & F) K].
  split.
  - intros p H1 H2. apply K. by intros [?|?].
  - exists evs. split; [exact T|]. eapply Forall_impl; [exact F|]. by intros e [_ He].
Qed.

Lemma download_and_extract_frame_witness :
  fs (download_and_extract Samples.good_world Samples.url (py "1") (py "S") (py "T")
        More.with_manifests).2 !! books_json
  = Some (BooksJson [Stuck.saved_second]).
Proof.
  destruct (download_and_extract_frame Samples.good_world Samples.url
              (py "1") (py "S") (py "T") More.with_manifests) as [H _].
  rewrite (H books_json); [reflexivity | by vm_compute | by vm_compute].
Defined.

(** X8: when the fetched bytes do not open as an archive, or the chosen
    member cannot be opened, the output path is not touched and the
    temporary archive is removed; a [BadZipFile] makes the call return
    [None] on the "corrupt zip" path, and an exception that is neither that
    nor one of [requests] leaves the call as it is. *)
Theorem archive_failure_keeps_output w url class_num subject title st chunks e :
  http_get w (length (trace st)) url = Body chunks None ->
  zip_open w (concat chunks) = inl e
  \/ (exists z name,
        zip_open w (concat chunks) = inr z
        /\ main_pdf_name z = Some name
        /\ member z name = OpenRaises e) ->
  let r := download_and_extract w url class_num subject title st in
  (is_BadZipFile e = true -> r.1 = Ret (Skipped CorruptZip))
  /\ (is_RequestException e = false -> is_BadZipFile e = false -> r.1 = Raise e)
  /\ fs r.2 !! pdf_path class_num subject title
     = fs st !! pdf_path class_num subject title
  /\ fs r.2 !! zip_path class_num = None.
Proof.
  intros Hg Hfail r.
  assert (r.1 = handled (Raise e)) as Hr.
  { unfold r. rewrite download_and_extract_outcome. unfold outcome_of. rewrite Hg.
    destruct Hfail as [->|(z & name & -> & -> & ->)]; done. }
  split; [|split; [|split]].
  - intros Hb. rewrite Hr. cbn. by destruct e.
  - intros H1 H2. rewrite Hr. cbn. by rewrite H1, H2.
  - unfold r. rewrite download_and_extract_run. cbn [fst snd]. rewrite run_bind.
    pose proof (confined_fetch w url (zip_path class_num) st) as Hc.
    destruct (fetch_ok_fs w url (zip_path class_num) st chunks Hg) as (st1 & E & Hzip).
    rewrite E in *. cbn [snd] in Hc. rewrite (extract_run _ _ _ _ _ _ Hzip).
    assert (extends (fun p => p = zip_path class_num) st
              (remove_if_exists (zip_path class_num) st1).2) as [_ K].
    { eapply extends_trans; [exact Hc|]. by apply confined_remove_if_exists. }
    destruct Hfail as [->|(z & name & -> & -> & ->)]; cbn [snd];
      apply K, pdf_path_not_zip_path.
  - apply download_and_extract_zip_removed.
Qed.

Lemma archive_failure_keeps_output_witness :
  let r := download_and_extract More.corrupt_world Samples.url
             (py "1") (py "S") (py "T") Samples.used in
  r.1 = Ret (Skipped CorruptZip)
  /\ fs r.2 !! pdf_path (py "1") (py "S") (py "T") = Some (Binary Samples.old_pdf).
Proof.
  intros r.
  destruct (archive_failure_keeps_output More.corrupt_world Samples.url
              (py "1") (py "S") (py "T") Samples.used Samples.archive_bytes BadZipFile
              eq_refl (or_introl eq_refl)) as (Hb & _ & Hp & _).
  split; [by apply Hb|]. unfold r. rewrite Hp. vm_compute. reflexivity.
Defined.

(** ** Further properties of Step 1 *)

Lemma gather_titles_ok w class_name subjects titles acc :
  Forall2 (fun s ts => book_options w class_name s = inr ts) subjects titles ->
  gather_titles w class_name subjects acc = inr (acc ++ books_of subjects titles).
Proof.
  intros H. revert acc. induction H as [|s ts subjects titles Hs _ IH]; intros acc.
  - cbn. by rewrite app_nil_r.
  - cbn [gather_titles]. rewrite Hs, IH. unfold books_of. cbn [zip_with concat].
    by rewrite app_assoc.
Qed.

Lemma gather_titles_raises w class_name before s after titles acc e :
  Forall2 (fun s ts => book_options w class_name s = inr ts) before titles ->
  book_options w class_name s = inl e ->
  gather_titles w class_name (before ++ s :: after) acc = inl e.
Proof.
  intros H He. revert acc. induction H as [|s' ts subjects titles' Hs _ IH]; intros acc.
  - cbn. by rewrite He.
  - cbn [app gather_titles]. by rewrite Hs, IH.
Qed.

(** X9: when the subjects and the titles of every subject load, Step 1 gives
    one book for every title of every subject, subject by subject in the
    order of the subject list and, within a subject, in the order of its
    titles; a subject without titles gives none. *)
Theorem gather_lists_every_title w class_name subjects titles st :
  subject_options w class_name = inr subjects ->
  Forall2 (fun s ts => book_options w class_name s = inr ts) subjects titles ->
  gather w class_name st = (Ret (books_of subjects titles), st)
  /\ length (books_of subjects titles) = sum_list (length <$> titles).
Proof.
  intros Hs Ht. split.
  - unfold gather. by rewrite Hs, (gather_titles_ok _ _ _ _ [] Ht).
  - clear Hs. induction Ht as [|s ts subjects titles _ _ IH]; [done|].
    unfold books_of in *. cbn [zip_with concat fmap list_fmap sum_list_with sum_list].
    rewrite length_app, length_fmap, IH. done.
Qed.

Lemma gather_lists_every_title_witness :
  gather Collision.changing_world (py "Class IX") Samples.empty
  = (Ret [ {| subject := py "S"; title := py "Part 1" |};
           {| subject := py "S"; title := py "Part_1" |} ], Samples.empty).
Proof.
  apply (gather_lists_every_title Collision.changing_world (py "Class IX")
           [py "S"] [[py "Part 1"; py "Part_1"]] Samples.empty eq_refl).
  by repeat constructor.
Defined.

(** ** Further properties of the run *)

Lemma class_number_parses (class_number class_name : str) :
  assoc class_number CLASS_MAP = Some class_name ->
  exists n, py_int class_number = Some n /\ (1 <= n <= 12)%Z.
Proof.
  unfold CLASS_MAP. cbn [assoc].
  repeat (case_bool_decide;
          [subst class_number; intros _; eexists; split; [vm_compute; reflexivity | lia]|]).
  done.
Qed.

(** X10: discovery is all or nothing.  In a run whose browser came up and
    loaded the entry page, when the subject list does not load, or the
    titles of some subject do not, even after other subjects gave theirs,
    the run ends with that exception: no book is visited, no file is
    touched, no manifest is written, and the browser is quit. *)
Theorem discovery_failure_aborts w class_number class_name st e :
  assoc class_number CLASS_MAP = Some class_name ->
  browser_up w = None ->
  first_page w = None ->
  subject_options w class_name = inl e
  \/ (exists before s after titles,
        subject_options w class_name = inr (before ++ s :: after)
        /\ Forall2 (fun s ts => book_options w class_name s = inr ts) before titles
        /\ book_options w class_name s = inl e) ->
  main w class_number st
  = (Raise e, {| fs := fs st; trace := trace st ++ [EvQuit] |}).
Proof.
  intros Hc Hup Hpage Hfail. unfold main. rewrite Hc, Hup, Hpage.
  unfold scrape, try_finally. rewrite run_bind.
  assert (gather w class_name st = (Raise e, st)) as ->; [|done].
  unfold gather.
  destruct Hfail as [->|(before & s & after & titles & -> & Hb & He)]; [done|].
  by rewrite (gather_titles_raises _ _ _ _ _ _ [] _ Hb He).
Qed.

Lemma discovery_failure_aborts_witness :
  main More.half_world (py "3") More.with_manifests
  = (Raise TimeoutException,
     {| fs := fs More.with_manifests; trace := [EvQuit] |}).
Proof.
  apply (discovery_failure_aborts More.half_world (py "3") (py "Class III")
           More.with_manifests TimeoutException eq_refl eq_refl eq_refl).
  right. exists [py "S1"], (py "S2"), [], [[py "T"]].
  split; [reflexivity|]. split; [by repeat constructor | reflexivity].
Defined.

Lemma write_manifests_trace w books hashes st :
  exists flushed,
    trace (write_manifests w books hashes st).2 = trace st ++ flushed
    /\ Forall (fun e => e <> EvQuit) flushed.
Proof.
  destruct (write_manifests_cases w books hashes st)
    as [H|[[e H]|(e & flushed & _ & _ & [k Hk] & H & _)]].
  - rewrite H. exists flush_events. split; [done | by repeat constructor].
  - rewrite H. exists []. by rewrite app_nil_r.
  - exists flushed. split; [done|].
    assert (Forall (fun e => e <> EvQuit) flush_events) as F by (by repeat constructor).
    rewrite Hk in F. by apply Forall_app in F as [F _].
Qed.

(** X11: the browser is quit exactly when the [try] was entered.  A run that
    got as far as loading the entry page quits the browser exactly once, as
    its last effect, whether it returns or raises, a failing flush
    included.  A run whose class is no key of [CLASS_MAP], whose driver
    does not start, or whose entry page does not load (lines 47-49, before
    the [try]) ends with that exception and no effect at all: in the last
    case the browser that was started is never quit. *)
Theorem main_quits_browser w class_number st :
  match assoc class_number CLASS_MAP with
  | None => main w class_number st = (Raise SystemExit, st)
  | Some _ =>
      match browser_up w, first_page w with
      | Some e, _ => main w class_number st = (Raise e, st)
      | None, Some e => main w class_number st = (Raise e, st)
      | None, None =>
          exists evs,
            trace (main w class_number st).2 = trace st ++ evs ++ [EvQuit]
            /\ Forall (fun e => e <> EvQuit) evs
      end
  end.
Proof.
  unfold main. destruct (assoc class_number CLASS_MAP) as [class_name|]; [|done].
  destruct (browser_up w) as [e|]; [done|].
  destruct (first_page w) as [e|]; [done|].
  unfold scrape, try_finally. rewrite run_bind.
  destruct (gather_run w class_name st) as [[e ->]|[books ->]].
  { exists []. by split. }
  rewrite run_bind.
  destruct (confined_process_books w class_number books ([], ∅) st) as [(evs & T & F) _].
  assert (Forall (fun e => e <> EvQuit) evs) as F'.
  { eapply Forall_impl; [exact F|]. by intros e [? _]. }
  destruct (process_books w class_number books ([], ∅) st) as [[acc|e] st1];
    cbn [fst snd] in *.
  - destruct (write_manifests_trace w acc.1 acc.2 st1) as (flushed & Hf & Ff).
    destruct (write_manifests w acc.1 acc.2 st1) as [r2 st2]. cbn [fst snd] in *.
    exists (evs ++ flushed). cbn. rewrite Hf, T, <- !app_assoc. split; [done|].
    by apply Forall_app.
  - cbn. exists evs. by rewrite T, <- app_assoc.
Qed.

Lemma process_books_unlinked w class_number books acc st :
  (forall t b, b ∈ books -> detail_page w t b = NoAnchor) ->
  process_books w class_number books acc st
  = (Ret acc, {| fs := fs st; trace := trace st ++ (EvNavigate <$> books) |}).
Proof.
  revert st. induction books as [|b rest IH]; intros st H.
  - cbn. rewrite app_nil_r. by destruct st.
  - cbn [process_books]. rewrite run_bind, process_book_run.
    rewrite (H _ b) by apply list_elem_of_here. cbv beta iota zeta.
    rewrite IH by (intros t b' Hb'; apply H; by apply list_elem_of_further).
    cbn [fs trace fmap list_fmap]. by rewrite <- app_assoc.
Qed.

(** X12: take a run whose browser came up and loaded the entry page, in
    which for every book the wait of line 106 found the link text but the
    parser found no anchor whose string matches (the branch of lines
    113-115), and in which both manifest files can be written.  It visits
    every book, fetches nothing, returns, and leaves both manifest files
    empty, replacing whatever manifests an earlier run had written; with no
    book at all the same happens without a visit. *)
Theorem run_without_anchors_empties_manifests w class_number class_name st books :
  assoc class_number CLASS_MAP = Some class_name ->
  browser_up w = None ->
  first_page w = None ->
  gather w class_name st = (Ret books, st) ->
  (forall t b, b ∈ books -> detail_page w t b = NoAnchor) ->
  (forall t p, persist w t p = Written) ->
  main w class_number st
  = (Ret tt,
     {| fs := <[hashes_json := HashesJson ∅]> (<[books_json := BooksJson []]> (fs st));
        trace := trace st ++ (EvNavigate <$> books)
                   ++ [EvOpenW books_json; EvWrite books_json;
                       EvOpenW hashes_json; EvWrite hashes_json; EvQuit] |}).
Proof.
  intros Hc Hup Hpage Hg Hp Hw. unfold main. rewrite Hc, Hup, Hpage.
  unfold scrape, try_finally.
  rewrite run_bind, Hg, run_bind, (process_books_unlinked _ _ _ _ _ Hp).
  cbn [fst snd]. unfold write_manifests. rewrite run_bind, write_json_run, Hw.
  cbv beta iota. rewrite write_json_run, Hw.
  cbn [fst snd fs trace emit]. by rewrite <- !app_assoc.
Qed.

Lemma run_without_anchors_empties_manifests_witness :
  let r := main More.unlinked_world (py "1") More.with_manifests in
  r.1 = Ret tt
  /\ fs More.with_manifests !! books_json = Some (BooksJson [Stuck.saved_second])
  /\ fs r.2 !! books_json = Some (BooksJson [])
  /\ fs r.2 !! hashes_json = Some (HashesJson ∅).
Proof.
  intros r. unfold r.
  rewrite (run_without_anchors_empties_manifests More.unlinked_world (py "1")
             (py "Class I") More.with_manifests
             [ {| subject := py "S"; title := py "T1" |};
               {| subject := py "S"; title := py "T2" |} ]
             eq_refl eq_refl eq_refl eq_refl (fun _ _ _ => eq_refl) (fun _ _ => eq_refl)).
  cbn [fst snd fs]. split; [reflexivity|]. split; [vm_compute; reflexivity|].
  split; [|apply lookup_insert_eq].
  rewrite lookup_insert_ne by (apply not_eq_sym, manifest_paths_differ).
  apply lookup_insert_eq.
Defined.

(** ** Further properties of the loop of Step 2 *)

Lemma process_book_entry w class_number b acc st acc' :
  (process_book w class_number b acc st).1 = Ret acc' ->
  acc' = acc
  \/ exists href n content,
       py_int class_number = Some n
       /\ acc' = (acc.1 ++ [book_entry_of b (download_url_of href) n
                              {| md_id := book_id class_number (subject b) (title b);
                                 md_pdf_path := pdf_path class_number (subject b) (title b);
                                 md_sha256 := sha256_hexdigest w content |}],
                  <[book_id class_number (subject b) (title b)
                      := sha256_hexdigest w content]> acc.2).
Proof.
  rewrite process_book_run. cbn zeta.
  destruct (detail_page w (length (trace st)) b) as [e| |[href|]]; cbn [fst];
    try done; try (intros [= <-]; by left).
  pose proof (download_and_extract_saved w (download_url_of href) class_number
                (subject b) (title b)
                {| fs := fs st; trace := trace st ++ [EvNavigate b] |}) as Hsaved.
  destruct (download_and_extract _ _ _ _ _ _) as [[[md|why]|e] st1];
    cbn [fst snd] in *; try done; try (intros [= <-]; by left).
  destruct (py_int class_number) as [n|] eqn:Hn; [|done]. cbn [fst snd]. intros [= <-].
  destruct (Hsaved md eq_refl) as (content & -> & _).
  right. by exists href, n, content.
Qed.

(** X13: the loop only appends to the list of entries: the entries it had
    are kept, in place, and the new ones stand for books of the list, at
    most one for each, in the order in which the books were processed. *)
Theorem process_books_appends_in_order w class_number books acc st acc' :
  (process_books w class_number books acc st).1 = Ret acc' ->
  exists new,
    acc'.1 = acc.1 ++ new
    /\ book_of <$> new `sublist_of` books
    /\ (length new <= length books)%nat.
Proof.
  revert acc st. induction books as [|b rest IH]; intros acc st; cbn [process_books].
  - intros [= <-]. exists []. rewrite app_nil_r. repeat split; [constructor | done].
  - rewrite run_bind.
    pose proof (process_book_entry w class_number b acc st) as Hb.
    destruct (process_book w class_number b acc st) as [[acc1|e] st1]; [|done].
    cbn [fst] in Hb. intros Hrest.
    destruct (IH acc1 st1 Hrest) as (new & Hnew & Hsub & Hlen).
    destruct (Hb acc1 eq_refl) as [->|(href & n & content & _ & ->)].
    + exists new. split; [done|]. split; [by apply sublist_cons | cbn [length]; lia].
    + cbn [fst] in Hnew. eexists (_ :: new).
      split; [by rewrite Hnew, <- app_assoc|]. split.
      * cbn [fmap list_fmap]. destruct b. by apply sublist_skip.
      * cbn [length]. lia.
Qed.

Lemma process_books_appends_in_order_witness :
  exists new,
    Collision.both.1 = [] ++ new
    /\ book_of <$> new `sublist_of` [Collision.first; Collision.second].
Proof.
  destruct (process_books_appends_in_order Collision.changing_world (py "9")
              [Collision.first; Collision.second] ([], ∅) Samples.empty Collision.both)
    as (new & H1 & H2 & _); [vm_compute; reflexivity|].
  by exists new.
Defined.

Lemma well_formed_process_book w class_number b acc st acc' :
  (process_book w class_number b acc st).1 = Ret acc' ->
  well_formed class_number acc -> well_formed class_number acc'.
Proof.
  intros H [Hwf Hsize].
  destruct (process_book_entry _ _ _ _ _ _ H) as [->|(href & n & content & Hn & ->)];
    [done|].
  split; cbn [fst snd].
  - apply Forall_app. split.
    + eapply Forall_impl; [exact Hwf|].
      intros e (? & ? & ? & ? & Hsome). repeat split; try done.
      rewrite lookup_insert. by case_decide.
    + constructor; [|constructor]. destruct b as [s t]. repeat split; try done.
      * by exists href.
      * cbn. by rewrite lookup_insert_eq.
  - rewrite length_app. cbn [length].
    pose proof (map_size_insert (book_id class_number (subject b) (title b))
                  (sha256_hexdigest w content) acc.2) as Hs.
    rewrite Hs. destruct (acc.2 !! _); unfold id; lia.
Qed.

Lemma well_formed_process_books w class_number books acc st acc' :
  (process_books w class_number books acc st).1 = Ret acc' ->
  well_formed class_number acc -> well_formed class_number acc'.
Proof.
  revert acc st. induction books as [|b rest IH]; intros acc st; cbn [process_books].
  - by intros [= <-].
  - rewrite run_bind.
    destruct (process_book w class_number b acc st) as [[acc1|e] st1] eqn:E; [|done].
    intros Hrest Hacc. apply (IH acc1 st1 Hrest).
    eapply well_formed_process_book; [|exact Hacc]. by rewrite E.
Qed.

(** X14: in the manifests a run writes, every entry of the list carries the
    identifier and the path derived from its own subject and title, the
    number of the class, between 1 and 12, and an archive reference that
    begins with the site prefix; its identifier is a key of the index, and
    the index has no more keys than the list has entries. *)
Theorem manifest_entries_well_formed w class_number st books hashes :
  let r := main w class_number st in
  r.1 = Ret tt ->
  fs r.2 !! books_json = Some (BooksJson books) ->
  fs r.2 !! hashes_json = Some (HashesJson hashes) ->
  Forall (fun e => well_formed_entry class_number hashes e
                   /\ (1 <= be_class e <= 12)%Z) books
  /\ (size hashes <= length books)%nat.
Proof.
  intros r. subst r. unfold main.
  destruct (assoc class_number CLASS_MAP) as [class_name|] eqn:Hc; [|done].
  destruct (class_number_parses _ _ Hc) as (n & Hn & Hrange).
  destruct (browser_up w) as [e|]; [done|].
  destruct (first_page w) as [e|]; [done|].
  unfold scrape, try_finally. rewrite run_bind.
  destruct (gather_run w class_name st) as [[e ->]|[bs ->]]; [done|].
  rewrite run_bind.
  pose proof (well_formed_process_books w class_number bs ([], ∅) st) as Hwf.
  destruct (process_books w class_number bs ([], ∅) st) as [[acc|e] st1];
    cbn [fst snd] in *; [|done].
  pose proof (write_manifests_returns w acc.1 acc.2 st1) as Hret.
  destruct (write_manifests w acc.1 acc.2 st1) as [[[]|e] st2]; cbn [fst snd] in *;
    [|done].
  injection (Hret eq_refl) as ->. cbn [fst snd fs trace emit]. intros _.
  rewrite lookup_insert_ne by (apply not_eq_sym, manifest_paths_differ).
  rewrite !lookup_insert_eq. intros [= <-] [= <-].
  destruct (Hwf acc eq_refl) as [H1 H2].
  { split; [apply Forall_nil_2 | cbn; by rewrite map_size_empty]. }
  split; [|exact H2]. eapply Forall_impl; [exact H1|].
  intros e Hwfe. split; [exact Hwfe|].
  destruct Hwfe as (_ & _ & Hint & _). rewrite Hn in Hint. by injection Hint as <-.
Qed.

Lemma manifest_entries_well_formed_witness :
  (main Samples.good_world (py "1") Samples.used).1 = Ret tt
  /\ (size ({[ py "c1_s_t" := Samples.toy_digest Samples.book_pdf ]} : gmap str str) <= 1)%nat.
Proof.
  assert ((main Samples.good_world (py "1") Samples.used).1 = Ret tt) as H
    by (vm_compute; reflexivity).
  split; [exact H|].
  apply (manifest_entries_well_formed Samples.good_world (py "1") Samples.used
           [book_entry_of {| subject := py "S"; title := py "T" |} Samples.url 1
              {| md_id := py "c1_s_t";
                 md_pdf_path := py "downloads/class_1/s_t.pdf";
                 md_sha256 := Samples.toy_digest Samples.book_pdf |}]
           {[ py "c1_s_t" := Samples.toy_digest Samples.book_pdf ]} H);
    vm_compute; reflexivity.
Defined.

(** X15: processing a list of books is processing its first part and then
    the rest, with the accumulators and from the state the first part left;
    when the first part raises, the rest is not processed at all. *)
Theorem process_books_app w class_number books1 books2 acc st :
  process_books w class_number (books1 ++ books2) acc st
  = match process_books w class_number books1 acc st with
    | (Ret acc1, st1) => process_books w class_number books2 acc1 st1
    | (Raise e, st1) => (Raise e, st1)
    end.
Proof.
  revert acc st. induction books1 as [|b rest IH]; intros acc st; [done|].
  cbn [app process_books]. rewrite !run_bind.
  destruct (process_book w class_number b acc st) as [[acc1|e] st1]; [apply IH | done].
Qed.

(** X16: the "no PDF found" path is taken only when the body arrived whole,
    opened as an archive, and no member name of the archive ends in
    ".pdf". *)
Theorem no_pdf_found_only_without_pdf w url class_num subject title st :
  (download_and_extract w url class_num subject title st).1
    = Ret (Skipped NoPdfFound) ->
  exists chunks z,
    http_get w (length (trace st)) url = Body chunks None
    /\ zip_open w (concat chunks) = inr z
    /\ forall f, f ∈ namelist z -> is_pdf f = false.
Proof.
  rewrite download_and_extract_outcome. unfold outcome_of.
  assert (forall e, handled (Raise e) <> Ret (Skipped NoPdfFound)) as Hh.
  { intros e. cbn. by repeat case_match. }
  destruct (http_get w (length (trace st)) url) as [e| |chunks [e|]];
    try (intros H; by apply Hh in H).
  destruct (zip_open w (concat chunks)) as [e|z] eqn:Hz; [intros H; by apply Hh in H|].
  unfold main_pdf_name, py_max.
  destruct (pdf_files z) as [|f0 l] eqn:Hp.
  - intros _. exists chunks, z. split; [done|]. split; [done|].
    intros f Hf. destruct (is_pdf f) eqn:E; [|done].
    assert (f ∈ pdf_files z) as Hin.
    { unfold pdf_files. apply list_elem_of_In, filter_In.
      split; [by apply list_elem_of_In | done]. }
    rewrite Hp in Hin. by apply not_elem_of_nil in Hin.
  - destruct (member z _); [intros H; by apply Hh in H..|done].
Qed.

Lemma no_pdf_found_only_without_pdf_witness :
  exists chunks z,
    http_get Samples.no_pdf_world (length (trace Samples.used)) Samples.url
      = Body chunks None
    /\ zip_open Samples.no_pdf_world (concat chunks) = inr z
    /\ forall f, f ∈ namelist z -> is_pdf f = false.
Proof.
  apply (no_pdf_found_only_without_pdf Samples.no_pdf_world Samples.url
           (py "1") (py "S") (py "T") Samples.used).
  vm_compute. reflexivity.
Defined.

(** X17: when the request itself raises or the status is an error, the call
    creates and writes no file: the disk afterwards is the disk before
    without the temporary archive (a stale one is removed). *)
Theorem request_failure_writes_nothing w url class_num subject title st :
  (exists e, http_get w (length (trace st)) url = GetRaises e)
  \/ http_get w (length (trace st)) url = BadStatus ->
  let r := download_and_extract w url class_num subject title st in
  fs r.2 = delete (zip_path class_num) (fs st)
  /\ exists evs,
       trace r.2 = trace st ++ EvGet url :: evs
       /\ Forall (fun ev => forall p, ev <> EvOpenW p /\ ev <> EvWrite p) evs.
Proof.
  intros Hfail r. unfold r. rewrite download_and_extract_run. cbn [fst snd].
  assert (exists res,
            (fetch w url (zip_path class_num);; extract w class_num subject title) st
            = (res, {| fs := fs st; trace := trace st ++ [EvGet url] |})) as [res ->].
  { rewrite run_bind. unfold fetch. run.
    destruct Hfail as [[e ->]| ->]; run; by eexists. }
  cbn [snd]. unfold remove_if_exists. cbn [fs].
  destruct (fs st !! zip_path class_num) eqn:E; run; cbn.
  - split; [done|]. exists [EvRemove (zip_path class_num)].
    split; [by rewrite <- app_assoc | by repeat constructor].
  - split; [by rewrite delete_id|]. exists []. by split.
Qed.

Lemma request_failure_writes_nothing_witness :
  let w := Samples.world_of [py "T"] Samples.linked (fun _ _ => BadStatus)
             (fun _ => inr Samples.good_zip) in
  let r := download_and_extract w Samples.url (py "1") (py "S") (py "T") Samples.used in
  fs r.2 = delete (zip_path (py "1")) (fs Samples.used).
Proof.
  intros w r.
  apply (request_failure_writes_nothing w Samples.url (py "1") (py "S") (py "T")
           Samples.used).
  by right.
Defined.
